(** * MergePDF: interleaving the front-side and back-side scans of a document

    A shallow embedding of [mergeScans.py].  The script is one class,
    [MergePDF], whose constructor runs the whole pipeline: open the two scan
    files, compare their page counts, (optionally rotate one of them,) merge
    them page by page with the back-side scan reversed, write the result and
    move the two inputs into an archive folder.

    Python integers are [Z]; Python lists are [list] and are indexed with
    [Py.getitem], which has Python's negative indices and its [IndexError];
    the file system is a finite map from path names to documents; methods
    are functions in a state-and-exception monad over the outside world. *)

From stdpp Require Import gmap strings list.
From Stdlib Require Import ZArith Ascii.

Local Open Scope string_scope.
Local Open Scope Z_scope.
Local Open Scope list_scope.

(** ** Python sequences *)

Module Py.

(** [len(range(start, stop, step))], as CPython computes it ([step] is
    never 0 in the script). *)
Definition range_len (start stop step : Z) : Z :=
  if 0 <? step then
    if start <? stop then (stop - start - 1) / step + 1 else 0
  else if step <? 0 then
    if stop <? start then (start - stop - 1) / (- step) + 1 else 0
  else 0.

(** [range(start, stop, step)] as the list of its elements. *)
Definition range3 (start stop step : Z) : list Z :=
  map (fun k : nat => start + Z.of_nat k * step)
      (seq 0 (Z.to_nat (range_len start stop step))).

(** [range(n)]. *)
Definition range (n : Z) : list Z := range3 0 n 1.

(** [len(l)]. *)
Definition len {A} (l : list A) : Z := Z.of_nat (length l).

(** [l[i]]: a negative index counts from the end; [None] stands for
    [IndexError]. *)
Definition getitem {A} (l : list A) (i : Z) : option A :=
  if i <? 0 then
    if 0 <=? len l + i then l !! Z.to_nat (len l + i) else None
  else l !! Z.to_nat i.

End Py.

(** ** Pages and documents *)

(** A page object of the PDF library.  [page_id] stands for the identity
    and content of the page, [rotation] for its [/Rotate] entry, the only
    attribute the script changes. *)
Record Page : Type := mkPage { page_id : nat; rotation : Z }.

Global Instance Page_eq_dec : EqDecision Page.
Proof. solve_decision. Defined.

(** The page [p] turned by [angle]: the angle is added to the rotation
    entry. *)
Definition turned (angle : Z) (p : Page) : Page :=
  {| page_id := page_id p; rotation := rotation p + angle |}.

(** The rotation attribute as the data model reads it: degrees modulo 360. *)
Definition orientation (p : Page) : Z := rotation p mod 360.

(** Two pages are the same page in the same orientation. *)
Definition same_view (p q : Page) : Prop :=
  page_id p = page_id q /\ orientation p = orientation q.

(** ** Exceptions *)

Inductive Exn : Type :=
  | FileNotFoundError (path : string)
  | IsADirectoryError (path : string)
  | FileExistsError (path : string)
  | PermissionError (path : string)
  | ShutilError (path : string)     (* shutil.Error, a subclass of OSError *)
  | IndexError
  | ValueError.

(** [isinstance(e, OSError)]. *)
Definition is_OSError (e : Exn) : bool :=
  match e with
  | IndexError | ValueError => false
  | _ => true
  end.

(** [page.rotate(angle)] of the PDF library: an angle that is not a multiple
    of 90 is refused with [ValueError]; otherwise the angle is added to the
    rotation entry of the page. *)
Definition rotate (angle : Z) (p : Page) : Exn + Page :=
  if angle mod 90 =? 0 then inr (turned angle p) else inl ValueError.

(** [for page in pages: page.rotate(angle)]. *)
Fixpoint rotate_each (angle : Z) (pages : list Page) : Exn + list Page :=
  match pages with
  | [] => inr []
  | page :: pages' =>
      match rotate angle page with
      | inl e => inl e
      | inr page' =>
          match rotate_each angle pages' with
          | inl e => inl e
          | inr rest => inr (page' :: rest)
          end
      end
  end.

(** ** The merge loop (lines 103-107 of [merge_files]) *)

(** [[pages[i] for i in idx]]. *)
Fixpoint comprehension (pages : list Page) (idx : list Z) : Exn + list Page :=
  match idx with
  | [] => inr []
  | i :: idx' =>
      match Py.getitem pages i with
      | None => inl IndexError
      | Some p =>
          match comprehension pages idx' with
          | inl e => inl e
          | inr ps => inr (p :: ps)
          end
      end
  end.

(** [reversed_even_pages = [even_reader.pages[i]
                            for i in range(even_pages - 1, -1, -1)]]. *)
Definition reversed_even (even_reader : list Page) (even_pages : Z)
  : Exn + list Page :=
  comprehension even_reader (Py.range3 (even_pages - 1) (-1) (-1)).

(** [for x in xs: merge.add_page(odd_reader.pages[x]);
                  merge.add_page(reversed_even_pages[x])]
    where [writer] is the list of pages added so far. *)
Fixpoint add_pages (odd_reader reversed_even_pages : list Page)
    (xs : list Z) (writer : list Page) : Exn + list Page :=
  match xs with
  | [] => inr writer
  | x :: xs' =>
      match Py.getitem odd_reader x with
      | None => inl IndexError
      | Some p =>
          match Py.getitem reversed_even_pages x with
          | None => inl IndexError
          | Some q => add_pages odd_reader reversed_even_pages xs'
                        (writer ++ [p] ++ [q])
          end
      end
  end.

(** The pages of the writer when the loop of [merge_files] is over. *)
Definition merged_pages (odd_reader even_reader : list Page)
    (odd_pages even_pages : Z) : Exn + list Page :=
  match reversed_even even_reader even_pages with
  | inl e => inl e
  | inr reversed_even_pages =>
      add_pages odd_reader reversed_even_pages (Py.range odd_pages) []
  end.

(** Alternating two sequences, as far as the shorter one goes. *)
Fixpoint interleave (front back : list Page) : list Page :=
  match front, back with
  | f :: front', b :: back' => f :: b :: interleave front' back'
  | _, _ => []
  end.

(** ** The outside world *)

(** What the script prints, one constructor per [print] call. *)
Inductive Msg : Type :=
  | MsgEqual                         (* "Odd pages are equal to even pages: executing merge." *)
  | MsgNotEqual                      (* "Odd pages are not equal to even pages: aborting." *)
  | MsgRotated (target : string) (angle : Z)
                                     (* "Rotated all {target} pages by {angle} degrees." *)
  | MsgInvalidTarget                 (* "Invalid target specified. Use 'odd' or 'even'." *)
  | MsgMerged (name : string)        (* "Documents merged successfully into {name}" *)
  | MsgMoved (folder : string)       (* "Moved input files to '{folder}' with updated names." *)
  | MsgMoveError (e : Exn)           (* "Error while moving files: {e}" *)
  | MsgFinished.                     (* "Finished successfully." *)

(** The working directory and the console.  [files] maps the name of a
    regular file to the pages of the document it holds, [dirs] is the set of
    directories, and [denied] the set of names at which the operating system
    refuses to create or replace an entry (missing permission, a parent that
    is missing or is not a directory, a read-only medium).  [pinned] is the
    set of names whose entry the operating system refuses to take away, by
    a rename or by a removal (a folder that may not be changed, a file that
    is locked or protected).  [now_minute] and [now_date] are what
    [datetime.now().strftime] returns for ["%Y%m%d_%H%M"] and for
    ["%Y-%m-%d"]. *)
Record World : Type := mkWorld {
  files : gmap string (list Page);
  dirs : gset string;
  denied : gset string;
  pinned : gset string;
  stdout : list Msg;
  now_minute : string;
  now_date : string
}.

Definition set_files (fs : gmap string (list Page)) (w : World) : World :=
  {| files := fs; dirs := dirs w; denied := denied w; pinned := pinned w;
     stdout := stdout w;
     now_minute := now_minute w; now_date := now_date w |}.

Definition set_dirs (ds : gset string) (w : World) : World :=
  {| files := files w; dirs := ds; denied := denied w; pinned := pinned w;
     stdout := stdout w;
     now_minute := now_minute w; now_date := now_date w |}.

Definition set_stdout (out : list Msg) (w : World) : World :=
  {| files := files w; dirs := dirs w; denied := denied w; pinned := pinned w;
     stdout := out;
     now_minute := now_minute w; now_date := now_date w |}.

(** ** Computations: state that survives an exception *)

Inductive outcome (A : Type) : Type :=
  | Ok (a : A) (w : World)
  | Raise (e : Exn) (w : World).
Arguments Ok {A} a w.
Arguments Raise {A} e w.

Definition M (A : Type) : Type := World -> outcome A.

Definition ret {A} (a : A) : M A := fun w => Ok a w.

Definition raise {A} (e : Exn) : M A := fun w => Raise e w.

Definition bind {A B} (m : M A) (k : A -> M B) : M B :=
  fun w => match m w with
           | Ok a w' => k a w'
           | Raise e w' => Raise e w'
           end.

Global Instance M_ret : MRet M := @ret.
Global Instance M_bind : MBind M := fun A B k m => bind m k.

(** [try: body  except OSError as e: handler(e)]. *)
Definition try_except_OSError {A} (body : M A) (handler : Exn -> M A) : M A :=
  fun w => match body w with
           | Ok a w' => Ok a w'
           | Raise e w' => if is_OSError e then handler e w' else Raise e w'
           end.

(** The world in which a computation ends, whether it returns or raises. *)
Definition final {A} (o : outcome A) : World :=
  match o with
  | Ok _ w => w
  | Raise _ w => w
  end.

Definition lift {A} (r : Exn + A) : M A :=
  match r with
  | inl e => raise e
  | inr a => ret a
  end.

(** ** Library calls *)

(** [print(msg)]. *)
Definition print (msg : Msg) : M unit :=
  fun w => Ok tt (set_stdout (stdout w ++ [msg]) w).

(** [datetime.now().strftime("%Y%m%d_%H%M")]. *)
Definition strftime_minute : M string := fun w => Ok (now_minute w) w.

(** [datetime.now().strftime("%Y-%m-%d")]. *)
Definition strftime_date : M string := fun w => Ok (now_date w) w.

(** [PdfReader(path).pages]: the pages of the document stored at [path]. *)
Definition PdfReader (path : string) : M (list Page) :=
  fun w => match files w !! path with
           | Some pages => Ok pages w
           | None =>
               if bool_decide (path ∈ dirs w) then Raise (IsADirectoryError path) w
               else Raise (FileNotFoundError path) w
           end.

(** [os.path.exists(path)]. *)
Definition exists_path (path : string) (w : World) : bool :=
  bool_decide (is_Some (files w !! path)) || bool_decide (path ∈ dirs w).

Definition os_path_exists (path : string) : M bool :=
  fun w => Ok (exists_path path w) w.

(** [os.path.join(a, b)] for a relative [b]. *)
Definition os_path_join (a b : string) : string := a +:+ "/" +:+ b.

Fixpoint has_slash (s : string) : bool :=
  match s with
  | EmptyString => false
  | String c r => bool_decide (c = "/"%char) || has_slash r
  end.

(** [os.path.basename(path)]: what follows the last slash. *)
Fixpoint os_path_basename (path : string) : string :=
  match path with
  | EmptyString => EmptyString
  | String c r =>
      if has_slash r then os_path_basename r
      else if bool_decide (c = "/"%char) then r
      else String c r
  end.

(** [os.makedirs(path)]. *)
Definition os_makedirs (path : string) : M unit :=
  fun w =>
    if exists_path path w then Raise (FileExistsError path) w
    else if bool_decide (path ∈ denied w) then Raise (PermissionError path) w
    else Ok tt (set_dirs ({[path]} ∪ dirs w) w).

(** [with open(path, 'wb') as f: writer.write(f)], where the writer holds
    [pages]. *)
Definition write_pdf (path : string) (pages : list Page) : M unit :=
  fun w =>
    if bool_decide (path ∈ dirs w) then Raise (IsADirectoryError path) w
    else if bool_decide (path ∈ denied w) then Raise (PermissionError path) w
    else Ok tt (set_files (<[path := pages]> (files w)) w).

(** [os.path.isdir(path)]. *)
Definition os_path_isdir (path : string) : M bool :=
  fun w => Ok (bool_decide (path ∈ dirs w)) w.

(** [os.rename(src, dst)] for a regular file [src]: the entry leaves its
    name and takes the other, replacing a regular file that is there. *)
Definition os_rename (src dst : string) : M unit :=
  fun w =>
    match files w !! src with
    | None => Raise (FileNotFoundError src) w
    | Some doc =>
        if bool_decide (src ∈ pinned w) then Raise (PermissionError src) w
        else if bool_decide (dst ∈ dirs w) then Raise (IsADirectoryError dst) w
        else if bool_decide (dst ∈ denied w) then Raise (PermissionError dst) w
        else Ok tt (set_files (<[dst := doc]> (delete src (files w))) w)
    end.

(** [shutil.copy2(src, dst)]: the document is written at the destination
    (inside it, under the name of the source, when it is a directory); the
    source stays. *)
Definition copy2 (src dst : string) : M unit :=
  fun w =>
    let dst :=
      if bool_decide (dst ∈ dirs w) then os_path_join dst (os_path_basename src)
      else dst in
    match files w !! src with
    | None => Raise (FileNotFoundError src) w
    | Some doc =>
        if bool_decide (dst ∈ dirs w) then Raise (IsADirectoryError dst) w
        else if bool_decide (dst ∈ denied w) then Raise (PermissionError dst) w
        else Ok tt (set_files (<[dst := doc]> (files w)) w)
    end.

(** [os.unlink(path)]. *)
Definition os_unlink (path : string) : M unit :=
  fun w =>
    match files w !! path with
    | None =>
        if bool_decide (path ∈ dirs w) then Raise (IsADirectoryError path) w
        else Raise (FileNotFoundError path) w
    | Some _ =>
        if bool_decide (path ∈ pinned w) then Raise (PermissionError path) w
        else Ok tt (set_files (delete path (files w)) w)
    end.

(** [shutil.move(src, dst)] for a regular file [src] that is not a link.  A
    destination that is a directory receives the file under its own name,
    unless that name is taken there.  The library tries [os.rename] first;
    when that is refused it copies the file and then removes the source, so
    that a removal that is refused leaves the copy at the destination and
    the source where it was.  (A rename that is refused for a reason that
    stops neither the copy nor the removal, such as a destination on another
    file system, ends as the rename would have.) *)
Definition shutil_move (src dst : string) : M unit :=
  isdir ← os_path_isdir dst;
  real_dst ← (if isdir : bool then
                let real_dst := os_path_join dst (os_path_basename src) in
                ex ← os_path_exists real_dst;
                if ex : bool then raise (ShutilError real_dst)
                else mret real_dst
              else mret dst);
  try_except_OSError (os_rename src real_dst)
    (fun _ => copy2 src real_dst;; os_unlink src).

(** ** The class [MergePDF] *)

Module MergePDF.

(** The attributes of the object.  Python creates an attribute at its first
    assignment; here every attribute is present from the start, with an
    empty value that is never read before the assignment. *)
Record t : Type := mk {
  odd : string;                 (* name of the front-side scan *)
  even : string;                (* name of the back-side scan *)
  merged : string;              (* name of the output *)
  archive_folder : string;
  odd_reader : list Page;       (* the page objects of [odd_reader.pages] *)
  even_reader : list Page;      (* the page objects of [even_reader.pages] *)
  odd_pages : Z;
  even_pages : Z;
  check : bool;
  merge : list Page             (* the pages added to the writer *)
}.

Definition set_readers (o e : list Page) (op ep : Z) (self : t) : t :=
  {| odd := odd self; even := even self; merged := merged self;
     archive_folder := archive_folder self;
     odd_reader := o; even_reader := e; odd_pages := op; even_pages := ep;
     check := check self; merge := merge self |}.

Definition set_check (b : bool) (self : t) : t :=
  {| odd := odd self; even := even self; merged := merged self;
     archive_folder := archive_folder self;
     odd_reader := odd_reader self; even_reader := even_reader self;
     odd_pages := odd_pages self; even_pages := even_pages self;
     check := b; merge := merge self |}.

Definition set_merge (ps : list Page) (self : t) : t :=
  {| odd := odd self; even := even self; merged := merged self;
     archive_folder := archive_folder self;
     odd_reader := odd_reader self; even_reader := even_reader self;
     odd_pages := odd_pages self; even_pages := even_pages self;
     check := check self; merge := ps |}.

(** [open_files]: read both documents and count their pages. *)
Definition open_files (self : t) : M t :=
  o ← PdfReader (odd self);
  e ← PdfReader (even self);
  mret (set_readers o e (Py.len o) (Py.len e) self).

(** [check_pages]: the two counts must be equal. *)
Definition check_pages (self : t) : M t :=
  if odd_pages self =? even_pages self then
    let self := set_check true self in
    print MsgEqual;;
    mret self
  else
    let self := set_check false self in
    print MsgNotEqual;;
    mret self.

(** [rotate_pages]: rotate every page of the document named by [target].
    The page objects are those the readers hold, so a later [merge_files]
    sees them rotated. *)
Definition rotate_pages (self : t) (target : string) (angle : Z) : M t :=
  if bool_decide (target = "odd") then
    pages ← lift (rotate_each angle (odd_reader self));
    let self :=
      set_readers pages (even_reader self)
        (odd_pages self) (even_pages self) self in
    print (MsgRotated "odd" angle);;
    mret self
  else if bool_decide (target = "even") then
    pages ← lift (rotate_each angle (even_reader self));
    let self :=
      set_readers (odd_reader self) pages
        (odd_pages self) (even_pages self) self in
    print (MsgRotated "even" angle);;
    mret self
  else
    print MsgInvalidTarget;;
    mret self.

(** [merge_files]: alternate the front pages with the back pages taken in
    reverse order, and write the result. *)
Definition merge_files (self : t) : M t :=
  writer ← lift (merged_pages (odd_reader self) (even_reader self)
                   (odd_pages self) (even_pages self));
  write_pdf (merged self) writer;;
  print (MsgMerged (merged self));;
  mret (set_merge writer self).

(** [move_files]: move both inputs into the archive folder, the date put in
    front of their names. *)
Definition move_files (self : t) : M t :=
  ex ← os_path_exists (archive_folder self);
  (if negb ex then os_makedirs (archive_folder self) else mret tt);;
  current_date ← strftime_date;
  let odd_new_name :=
    os_path_join (archive_folder self) (current_date +:+ "_" +:+ odd self) in
  let even_new_name :=
    os_path_join (archive_folder self) (current_date +:+ "_" +:+ even self) in
  try_except_OSError
    (shutil_move (odd self) odd_new_name;;
     shutil_move (even self) even_new_name;;
     print (MsgMoved (archive_folder self)))
    (fun e => print (MsgMoveError e));;
  mret self.

(** The four names the constructor assigns first; [stamp] is the current
    date and time to the minute. *)
Definition fresh (stamp : string) : t :=
  {| odd := "PRT_FRONT_000975.pdf"; even := "PRT_BACK_000995.pdf";
     merged := "merged_" +:+ stamp +:+ ".pdf";
     archive_folder := "archive";
     odd_reader := []; even_reader := []; odd_pages := 0; even_pages := 0;
     check := false; merge := [] |}.

(** The constructor, which runs the pipeline.  The script ships with the
    call of [rotate_pages] commented out: [rot = None] is the script as it
    is, [rot = Some (target, angle)] the script with that line enabled and
    these arguments. *)
Definition __init__ (rot : option (string * Z)) : M t :=
  stamp ← strftime_minute;
  let self := fresh stamp in
  self ← open_files self;
  self ← check_pages self;
  if check self then
    self ← match rot with
           | Some (target, angle) => rotate_pages self target angle
           | None => mret self
           end;
    self ← merge_files self;
    self ← move_files self;
    print MsgFinished;;
    mret self
  else mret self.

End MergePDF.

(** ** Vocabulary of the statements *)

(** The attributes [open_files] leaves behind for the documents [front]
    and [back]. *)
Definition opened (self : MergePDF.t) (front back : list Page) : Prop :=
  MergePDF.odd_reader self = front /\ MergePDF.even_reader self = back /\
  MergePDF.odd_pages self = Py.len front /\
  MergePDF.even_pages self = Py.len back.

(** The output name can be written to. *)
Definition writable (path : string) (w : World) : Prop :=
  (path ∉ dirs w) ∧ (path ∉ denied w).

(** The state [rotate_pages] leaves behind, and what it prints. *)
Definition rotated (target : string) (angle : Z) (self : MergePDF.t)
  : MergePDF.t :=
  if bool_decide (target = "odd") then
    MergePDF.set_readers (map (turned angle) (MergePDF.odd_reader self))
      (MergePDF.even_reader self)
      (MergePDF.odd_pages self) (MergePDF.even_pages self) self
  else if bool_decide (target = "even") then
    MergePDF.set_readers (MergePDF.odd_reader self)
      (map (turned angle) (MergePDF.even_reader self))
      (MergePDF.odd_pages self) (MergePDF.even_pages self) self
  else self.

Definition rotate_msg (target : string) (angle : Z) : Msg :=
  if bool_decide (target = "odd") then MsgRotated "odd" angle
  else if bool_decide (target = "even") then MsgRotated "even" angle
  else MsgInvalidTarget.

(** A page and what it is once turned by [angle]. *)
Definition turned_by (angle : Z) (p p' : Page) : Prop :=
  page_id p' = page_id p /\ rotation p' = rotation p + angle.

(** The object once [open_files] and [check_pages] are done. *)
Definition loaded (w : World) (front back : list Page) : MergePDF.t :=
  MergePDF.set_check (Py.len front =? Py.len back)
    (MergePDF.set_readers front back (Py.len front) (Py.len back)
       (MergePDF.fresh (now_minute w))).

(** The angle of the optional rotation step is one the library accepts. *)
Definition valid_rotation (rot : option (string * Z)) : Prop :=
  match rot with
  | Some (_, angle) => angle mod 90 = 0
  | None => True
  end.

(** The optional rotation step of the constructor. *)
Definition pre_rotated (rot : option (string * Z)) (self : MergePDF.t)
  : MergePDF.t :=
  match rot with
  | Some (target, angle) => rotated target angle self
  | None => self
  end.

Definition pre_rotation_msgs (rot : option (string * Z)) : list Msg :=
  match rot with
  | Some (target, angle) => [rotate_msg target angle]
  | None => []
  end.

(** The document the constructor writes for the inputs [front] and [back]
    of one length. *)
Definition merged_doc (rot : option (string * Z)) (w : World)
    (front back : list Page) : list Page :=
  interleave (MergePDF.odd_reader (pre_rotated rot (loaded w front back)))
    (reverse (MergePDF.even_reader (pre_rotated rot (loaded w front back)))).

(** The object and the world once [merge_files] has returned. *)
Definition merged_self (rot : option (string * Z)) (w : World)
    (front back : list Page) : MergePDF.t :=
  MergePDF.set_merge (merged_doc rot w front back)
    (pre_rotated rot (loaded w front back)).

Definition merged_world (rot : option (string * Z)) (w : World)
    (front back : list Page) : World :=
  set_stdout (stdout w ++ [MsgEqual] ++ pre_rotation_msgs rot
                ++ [MsgMerged (MergePDF.merged (MergePDF.fresh (now_minute w)))])
    (set_files (<[MergePDF.merged (MergePDF.fresh (now_minute w))
                  := merged_doc rot w front back]> (files w)) w).

(** Two worlds with the same disk and the same clock; their consoles may
    differ. *)
Definition same_disk (w1 w2 : World) : Prop :=
  files w1 = files w2 /\ dirs w1 = dirs w2 /\ denied w1 = denied w2 /\
  pinned w1 = pinned w2 /\
  now_minute w1 = now_minute w2 /\ now_date w1 = now_date w2.

(** Two runs that end alike: the same value or the same exception, the same
    disk, and consoles related by [R]. *)
Definition same_run {A} (R : list Msg -> list Msg -> Prop)
    (o1 o2 : outcome A) : Prop :=
  match o1, o2 with
  | Ok a1 w1, Ok a2 w2 => a1 = a2 /\ same_disk w1 w2 /\ R (stdout w1) (stdout w2)
  | Raise e1 w1, Raise e2 w2 =>
      e1 = e2 /\ same_disk w1 w2 /\ R (stdout w1) (stdout w2)
  | _, _ => False
  end.

(** A computation that does not depend on what the console shows. *)
Definition console_blind {A} (R : list Msg -> list Msg -> Prop) (m : M A) : Prop :=
  forall w1 w2, same_disk w1 w2 -> R (stdout w1) (stdout w2) ->
                same_run R (m w1) (m w2).

(** The console [o1] is the console [o2] with the message [m] put in. *)
Definition with_line (m : Msg) (o1 o2 : list Msg) : Prop :=
  exists pre post, o1 = pre ++ m :: post /\ o2 = pre ++ post.

(** The console [o1] is the console [o2], or [o2] with [m] put in. *)
Definition at_most_line (m : Msg) (o1 o2 : list Msg) : Prop :=
  o1 = o2 \/ with_line m o1 o2.

(** The name [move_files] gives the input [name] in the archive. *)
Definition archived_as (self : MergePDF.t) (w : World) (name : string) : string :=
  os_path_join (MergePDF.archive_folder self) (now_date w +:+ "_" +:+ name).

(** A path inside [folder]. *)
Definition under (folder path : string) : Prop :=
  exists rest, path = folder +:+ "/" +:+ rest.


(** The inputs that are still where they were. *)
Definition unarchived (w : World) (inputs : list string) : list string :=
  filter (fun name => is_Some (files w !! name)) inputs.



(** The shapes the files can have once the merged output [O] is written
    and the archiving is over: the output added; a copy of the front scan
    added as well; the front scan moved; the front scan moved and a copy of
    the back scan added; both scans moved. *)
Definition archiving_shapes (fs fs' : gmap string (list Page))
    (front back : list Page) : Prop :=
  fs' = fs \/
  (exists d, under "archive" d /\ fs' = <[d := front]> fs) \/
  (exists d,
     under "archive" d /\
     fs' = <[d := front]> (delete "PRT_FRONT_000975.pdf" fs)) \/
  (exists d d',
     under "archive" d /\ under "archive" d' /\ d <> d' /\
     fs' = <[d' := back]> (<[d := front]> (delete "PRT_FRONT_000975.pdf" fs))) \/
  (exists d d',
     under "archive" d /\ under "archive" d' /\ d <> d' /\
     fs' = <[d' := back]>
             (delete "PRT_BACK_000995.pdf"
                (<[d := front]> (delete "PRT_FRONT_000975.pdf" fs)))).

(** ** Sample objects and working directories *)

(** A scan of three sheets, opened. *)
Definition self3 : MergePDF.t :=
  {| MergePDF.odd := "PRT_FRONT_000975.pdf";
     MergePDF.even := "PRT_BACK_000995.pdf";
     MergePDF.merged := "merged_20250103_1200.pdf";
     MergePDF.archive_folder := "archive";
     MergePDF.odd_reader := [mkPage 1 0; mkPage 2 0; mkPage 3 0];
     MergePDF.even_reader := [mkPage 11 0; mkPage 12 0; mkPage 13 0];
     MergePDF.odd_pages := 3; MergePDF.even_pages := 3;
     MergePDF.check := true; MergePDF.merge := [] |}.

(** A working directory with a front scan and a back scan of three pages
    each. *)
Definition w_3_3 : World :=
  {| files := {[ "PRT_FRONT_000975.pdf" := [mkPage 1 0; mkPage 2 0; mkPage 3 0];
                 "PRT_BACK_000995.pdf" := [mkPage 11 0; mkPage 12 0; mkPage 13 0] ]};
     dirs := ∅; denied := ∅; pinned := ∅; stdout := [];
     now_minute := "20250103_1200"; now_date := "2025-01-03" |}.

(** A working directory with a front scan of four pages and a back scan of
    five. *)
Definition w_4_5 : World :=
  {| files := {[ "PRT_FRONT_000975.pdf" :=
                   [mkPage 1 0; mkPage 2 0; mkPage 3 0; mkPage 4 0];
                 "PRT_BACK_000995.pdf" :=
                   [mkPage 11 0; mkPage 12 0; mkPage 13 0; mkPage 14 0;
                    mkPage 15 0] ]};
     dirs := ∅; denied := ∅; pinned := ∅; stdout := [];
     now_minute := "20250103_1200"; now_date := "2025-01-03" |}.

(** A working directory with two empty scans. *)
Definition w_empty : World :=
  {| files := {[ "PRT_FRONT_000975.pdf" := []; "PRT_BACK_000995.pdf" := [] ]};
     dirs := ∅; denied := ∅; pinned := ∅; stdout := [];
     now_minute := "20250103_1200"; now_date := "2025-01-03" |}.

(** A working directory whose archive folder accepts no new entry. *)
Definition w_locked : World :=
  {| files := {[ "PRT_FRONT_000975.pdf" := [mkPage 1 0];
                 "PRT_BACK_000995.pdf" := [mkPage 11 0] ]};
     dirs := {[ "archive" ]};
     denied := {[ "archive/2025-01-03_PRT_FRONT_000975.pdf";
                  "archive/2025-01-03_PRT_BACK_000995.pdf" ]};
     pinned := ∅;
     stdout := [];
     now_minute := "20250103_1200"; now_date := "2025-01-03" |}.

(** A working directory whose archive already holds a front scan archived
    earlier on the same day. *)
Definition w_taken : World :=
  {| files := {[ "PRT_FRONT_000975.pdf" := [mkPage 1 0];
                 "PRT_BACK_000995.pdf" := [mkPage 11 0];
                 "archive/2025-01-03_PRT_FRONT_000975.pdf" := [mkPage 99 0] ]};
     dirs := {[ "archive" ]};
     denied := ∅;
     pinned := ∅;
     stdout := [];
     now_minute := "20250103_1200"; now_date := "2025-01-03" |}.

(** An object whose front scan has three pages and whose back scan has two,
    as [open_files] leaves it; [check_pages] has not been asked. *)
Definition self_3_2 : MergePDF.t :=
  {| MergePDF.odd := "PRT_FRONT_000975.pdf";
     MergePDF.even := "PRT_BACK_000995.pdf";
     MergePDF.merged := "merged_20250103_1200.pdf";
     MergePDF.archive_folder := "archive";
     MergePDF.odd_reader := [mkPage 1 0; mkPage 2 0; mkPage 3 0];
     MergePDF.even_reader := [mkPage 11 0; mkPage 12 0];
     MergePDF.odd_pages := 3; MergePDF.even_pages := 2;
     MergePDF.check := false; MergePDF.merge := [] |}.

(** The other way round: two front pages, three back pages. *)
Definition self_2_3 : MergePDF.t :=
  {| MergePDF.odd := "PRT_FRONT_000975.pdf";
     MergePDF.even := "PRT_BACK_000995.pdf";
     MergePDF.merged := "merged_20250103_1200.pdf";
     MergePDF.archive_folder := "archive";
     MergePDF.odd_reader := [mkPage 1 0; mkPage 2 0];
     MergePDF.even_reader := [mkPage 11 0; mkPage 12 0; mkPage 13 0];
     MergePDF.odd_pages := 2; MergePDF.even_pages := 3;
     MergePDF.check := false; MergePDF.merge := [] |}.

(** A working directory in which the front scan cannot be put into the
    archive, while the back scan could. *)
Definition w_front_denied : World :=
  {| files := {[ "PRT_FRONT_000975.pdf" := [mkPage 1 0];
                 "PRT_BACK_000995.pdf" := [mkPage 11 0] ]};
     dirs := {[ "archive" ]};
     denied := {[ "archive/2025-01-03_PRT_FRONT_000975.pdf" ]};
     pinned := ∅;
     stdout := [];
     now_minute := "20250103_1200"; now_date := "2025-01-03" |}.

(** A working directory in which no archive folder exists and none can be
    made. *)
Definition w_no_folder : World :=
  {| files := {[ "PRT_FRONT_000975.pdf" := [mkPage 1 0];
                 "PRT_BACK_000995.pdf" := [mkPage 11 0] ]};
     dirs := ∅;
     denied := {[ "archive" ]};
     pinned := ∅;
     stdout := [];
     now_minute := "20250103_1200"; now_date := "2025-01-03" |}.

(** A working directory from which the front scan cannot be taken away,
    while the archive accepts it. *)
Definition w_front_pinned : World :=
  {| files := {[ "PRT_FRONT_000975.pdf" := [mkPage 1 0];
                 "PRT_BACK_000995.pdf" := [mkPage 11 0] ]};
     dirs := {[ "archive" ]};
     denied := ∅;
     pinned := {[ "PRT_FRONT_000975.pdf" ]};
     stdout := [];
     now_minute := "20250103_1200"; now_date := "2025-01-03" |}.

(** A working directory from which the back scan cannot be taken away. *)
Definition w_back_pinned : World :=
  {| files := {[ "PRT_FRONT_000975.pdf" := [mkPage 1 0];
                 "PRT_BACK_000995.pdf" := [mkPage 11 0] ]};
     dirs := {[ "archive" ]};
     denied := ∅;
     pinned := {[ "PRT_BACK_000995.pdf" ]};
     stdout := [];
     now_minute := "20250103_1200"; now_date := "2025-01-03" |}.

(** * Properties *)

(** ** Ranges and indexing *)

Lemma range_len_up (n : nat) : Py.range_len 0 (Z.of_nat n) 1 = Z.of_nat n.
Proof.
  unfold Py.range_len. change (0 <? 1) with true. cbv iota.
  destruct (Z.ltb_spec 0 (Z.of_nat n)); [rewrite Z.div_1_r|]; lia.
Qed.

Lemma range_len_down (n : nat) :
  Py.range_len (Z.of_nat n - 1) (-1) (-1) = Z.of_nat n.
Proof.
  unfold Py.range_len. change (0 <? -1) with false.
  change (-1 <? 0) with true. cbv iota. change (- -1) with 1.
  destruct (Z.ltb_spec (-1) (Z.of_nat n - 1)); [rewrite Z.div_1_r|]; lia.
Qed.

Lemma range_of_nat (n : nat) : Py.range (Z.of_nat n) = map Z.of_nat (seq 0 n).
Proof.
  unfold Py.range, Py.range3. rewrite range_len_up, Nat2Z.id.
  apply map_ext. intros k. lia.
Qed.

Lemma range3_down (n : nat) :
  Py.range3 (Z.of_nat n - 1) (-1) (-1)
  = map (fun k : nat => Z.of_nat n - 1 - Z.of_nat k) (seq 0 n).
Proof.
  unfold Py.range3. rewrite range_len_down, Nat2Z.id.
  apply map_ext. intros k. lia.
Qed.

Lemma getitem_nat {A} (l : list A) (k : nat) :
  Py.getitem l (Z.of_nat k) = l !! k.
Proof.
  unfold Py.getitem. destruct (Z.ltb_spec (Z.of_nat k) 0); [lia|].
  by rewrite Nat2Z.id.
Qed.

Lemma getitem_in_range {A} (l : list A) (i : Z) :
  0 <= i < Py.len l -> is_Some (Py.getitem l i).
Proof.
  intros Hi. rewrite <- (Z2Nat.id i) by lia. rewrite getitem_nat.
  apply lookup_lt_is_Some. unfold Py.len in Hi. lia.
Qed.

(** ** The comprehension that reverses the back-side scan *)

Lemma comprehension_lookups (pages : list Page) (idx : list nat) :
  Forall (fun k => (k < length pages)%nat) idx ->
  exists ps, comprehension pages (map Z.of_nat idx) = inr ps /\
             length ps = length idx /\
             forall j k, idx !! j = Some k -> ps !! j = pages !! k.
Proof.
  induction idx as [|k idx IH]; intros Hall.
  - exists []. split; [done|]. split; [done|]. intros j k Hj. by destruct j.
  - apply Forall_cons in Hall as [Hk Hall].
    destruct (IH Hall) as (ps & Hps & Hlen & Hlook).
    destruct (lookup_lt_is_Some_2 pages k Hk) as [p Hp].
    exists (p :: ps). simpl. rewrite getitem_nat, Hp, Hps.
    split; [done|]. split; [simpl; lia|].
    intros [|j] k' Hj; simpl in *.
    + by inversion Hj; subst.
    + by apply Hlook.
Qed.

Lemma reversed_even_reverse (back : list Page) :
  reversed_even back (Py.len back) = inr (reverse back).
Proof.
  unfold reversed_even, Py.len. rewrite range3_down.
  set (n := length back).
  assert (Hmap : map (fun k : nat => Z.of_nat n - 1 - Z.of_nat k) (seq 0 n)
                 = map Z.of_nat (map (fun k => n - S k)%nat (seq 0 n))).
  { rewrite map_map. apply map_ext_in. intros k Hk.
    apply in_seq in Hk. lia. }
  rewrite Hmap.
  destruct (comprehension_lookups back (map (fun k => n - S k)%nat (seq 0 n)))
    as (ps & Hps & Hlen & Hlook).
  { apply Forall_forall. intros k Hk. apply list_elem_of_In, in_map_iff in Hk.
    destruct Hk as (j & <- & Hj). apply in_seq in Hj. unfold n in *. lia. }
  rewrite Hps. f_equal. apply list_eq. intros j.
  rewrite length_map, length_seq in Hlen.
  destruct (decide (j < n)%nat) as [Hj|Hj].
  - rewrite reverse_lookup by done.
    apply Hlook. rewrite list_lookup_fmap, lookup_seq_lt by done. done.
  - rewrite !lookup_ge_None_2; [done| |]; rewrite ?length_reverse; lia.
Qed.

(** ** The loop that alternates the pages *)

Lemma add_pages_interleave (front rev : list Page) (m k : nat) (acc : list Page) :
  (k + m <= length front)%nat -> (k + m <= length rev)%nat ->
  add_pages front rev (map Z.of_nat (seq k m)) acc
  = inr (acc ++ interleave (take m (drop k front)) (take m (drop k rev))).
Proof.
  revert k acc. induction m as [|m IH]; intros k acc Hf Hr.
  - simpl. by rewrite app_nil_r.
  - simpl map. simpl add_pages. rewrite !getitem_nat.
    destruct (lookup_lt_is_Some_2 front k) as [p Hp]; [lia|].
    destruct (lookup_lt_is_Some_2 rev k) as [q Hq]; [lia|].
    rewrite Hp, Hq, IH by lia.
    rewrite (drop_S front p k Hp), (drop_S rev q k Hq). simpl.
    by rewrite <- app_assoc.
Qed.

Lemma merged_pages_interleave (front back : list Page) :
  length front = length back ->
  merged_pages front back (Py.len front) (Py.len back)
  = inr (interleave front (reverse back)).
Proof.
  intros Hlen. unfold merged_pages. rewrite reversed_even_reverse.
  unfold Py.len at 1. rewrite range_of_nat.
  rewrite add_pages_interleave by (rewrite ?length_reverse; lia).
  rewrite !drop_0. simpl.
  rewrite take_ge by lia. rewrite take_ge by (rewrite length_reverse; lia).
  done.
Qed.

Lemma interleave_length (front back : list Page) :
  length front = length back ->
  length (interleave front back) = (2 * length front)%nat.
Proof.
  revert back. induction front as [|f front IH]; intros [|b back] Hlen;
    simpl in *; try done.
  rewrite IH by lia. lia.
Qed.

Lemma interleave_lookup (front back : list Page) (i : nat) :
  length front = length back ->
  interleave front back !! (2 * i)%nat = front !! i /\
  interleave front back !! (2 * i + 1)%nat = back !! i.
Proof.
  revert back i. induction front as [|f front IH]; intros [|b back] i Hlen;
    simpl in Hlen; try done.
  destruct i as [|i]; [done|].
  replace (2 * S i)%nat with (S (S (2 * i))) by lia.
  replace (S (S (2 * i)) + 1)%nat with (S (S (2 * i + 1))) by lia.
  simpl. apply IH. lia.
Qed.

(** ** [merge_files] *)

Lemma merge_files_run (self : MergePDF.t) (w : World) (front back : list Page) :
  opened self front back -> length front = length back ->
  writable (MergePDF.merged self) w ->
  MergePDF.merge_files self w
  = Ok (MergePDF.set_merge (interleave front (reverse back)) self)
       (set_stdout (stdout w ++ [MsgMerged (MergePDF.merged self)])
          (set_files (<[MergePDF.merged self := interleave front (reverse back)]>
                        (files w)) w)).
Proof.
  intros (Ho & He & Hop & Hep) Hlen [Hdir Hden].
  unfold MergePDF.merge_files, mbind, M_bind, bind.
  rewrite Ho, He, Hop, Hep, merged_pages_interleave by done.
  simpl. unfold write_pdf.
  rewrite !bool_decide_eq_false_2 by done. reflexivity.
Qed.

(** C1: for front and back sequences of the same length n, the merge puts
    front[i] at position 2*i and back[n-1-i] at position 2*i+1 of its output,
    for every i in 0..n-1; the output is the front sequence alternated with
    the reversed back sequence, and it is what is written to the output
    file. *)
Theorem merge_interleaves_with_reversal
    (self : MergePDF.t) (front back : list Page) (n : Z) :
  opened self front back -> Py.len front = n -> Py.len back = n ->
  exists O,
    merged_pages (MergePDF.odd_reader self) (MergePDF.even_reader self)
      (MergePDF.odd_pages self) (MergePDF.even_pages self) = inr O /\
    O = interleave front (reverse back) /\
    (forall i, 0 <= i < n ->
       exists f b, Py.getitem front i = Some f /\
                   Py.getitem back (n - 1 - i) = Some b /\
                   Py.getitem O (2 * i) = Some f /\
                   Py.getitem O (2 * i + 1) = Some b) /\
    (forall w, writable (MergePDF.merged self) w ->
       exists w', MergePDF.merge_files self w = Ok (MergePDF.set_merge O self) w' /\
                  files w' !! MergePDF.merged self = Some O).
Proof.
  intros Hopen Hf Hb.
  assert (Hlen : length front = length back) by (unfold Py.len in *; lia).
  exists (interleave front (reverse back)).
  split.
  { destruct Hopen as (-> & -> & -> & ->). by apply merged_pages_interleave. }
  split; [done|]. split.
  - intros i Hi.
    assert (Hk : (Z.to_nat i < length front)%nat) by (unfold Py.len in *; lia).
    destruct (lookup_lt_is_Some_2 front _ Hk) as [f Hfi].
    assert (Hk' : (Z.to_nat (n - 1 - i) < length back)%nat)
      by (unfold Py.len in *; lia).
    destruct (lookup_lt_is_Some_2 back _ Hk') as [b Hbi].
    exists f, b.
    destruct (interleave_lookup front (reverse back) (Z.to_nat i)) as [H0 H1].
    { by rewrite length_reverse. }
    rewrite reverse_lookup in H1 by lia.
    rewrite <- (Z2Nat.id i) at 1 3 4 by lia.
    replace (n - 1 - i) with (Z.of_nat (Z.to_nat (n - 1 - i))) by lia.
    replace (2 * Z.of_nat (Z.to_nat i)) with (Z.of_nat (2 * Z.to_nat i)) by lia.
    replace (Z.of_nat (2 * Z.to_nat i) + 1)
      with (Z.of_nat (2 * Z.to_nat i + 1)) by lia.
    rewrite !getitem_nat, H0, H1.
    replace (length back - S (Z.to_nat i))%nat with (Z.to_nat (n - 1 - i))
      by (unfold Py.len in *; lia).
    done.
  - intros w Hw. eexists. split.
    + by apply merge_files_run.
    + simpl. apply lookup_insert_eq.
Qed.

Lemma merge_interleaves_with_reversal_witness :
  exists O,
    merged_pages (MergePDF.odd_reader self3) (MergePDF.even_reader self3) 3 3
    = inr O /\
    O = [mkPage 1 0; mkPage 13 0; mkPage 2 0; mkPage 12 0;
         mkPage 3 0; mkPage 11 0].
Proof.
  destruct (merge_interleaves_with_reversal self3
              [mkPage 1 0; mkPage 2 0; mkPage 3 0]
              [mkPage 11 0; mkPage 12 0; mkPage 13 0] 3)
    as (O & Hrun & HO & _); [repeat split | reflexivity | reflexivity |].
  exists O. split; [exact Hrun | exact HO].
Defined.

(** C2: for front and back sequences of the same length n the merged output
    has exactly 2n pages, that is, as many as both inputs together; this is
    the document [merge_files] writes. *)
Theorem merge_output_length
    (self : MergePDF.t) (front back : list Page) (n : Z) :
  opened self front back -> Py.len front = n -> Py.len back = n ->
  exists O,
    merged_pages (MergePDF.odd_reader self) (MergePDF.even_reader self)
      (MergePDF.odd_pages self) (MergePDF.even_pages self) = inr O /\
    Py.len O = 2 * n /\
    Py.len O = Py.len front + Py.len back /\
    (forall w, writable (MergePDF.merged self) w ->
       exists w', MergePDF.merge_files self w = Ok (MergePDF.set_merge O self) w' /\
                  files w' !! MergePDF.merged self = Some O).
Proof.
  intros Hopen Hf Hb.
  assert (Hlen : length front = length back) by (unfold Py.len in *; lia).
  exists (interleave front (reverse back)).
  assert (HO : Py.len (interleave front (reverse back)) = 2 * n).
  { unfold Py.len in *.
    rewrite interleave_length by (by rewrite length_reverse). lia. }
  split.
  { destruct Hopen as (-> & -> & -> & ->). by apply merged_pages_interleave. }
  split; [done|]. split; [lia|].
  intros w Hw. eexists. split.
  - by apply merge_files_run.
  - simpl. apply lookup_insert_eq.
Qed.

Lemma merge_output_length_witness :
  exists O,
    merged_pages (MergePDF.odd_reader self3) (MergePDF.even_reader self3) 3 3
    = inr O /\ Py.len O = 6.
Proof.
  destruct (merge_output_length self3
              [mkPage 1 0; mkPage 2 0; mkPage 3 0]
              [mkPage 11 0; mkPage 12 0; mkPage 13 0] 3)
    as (O & Hrun & HO & _); [repeat split | reflexivity | reflexivity |].
  exists O. split; [exact Hrun | exact HO].
Defined.

Lemma elem_of_range (n : nat) (x : Z) :
  x ∈ Py.range (Z.of_nat n) -> 0 <= x < Z.of_nat n.
Proof.
  rewrite range_of_nat. intros Hx.
  apply list_elem_of_In, in_map_iff in Hx as (k & <- & Hk).
  apply in_seq in Hk. lia.
Qed.

Lemma elem_of_range3_down (n : nat) (i : Z) :
  i ∈ Py.range3 (Z.of_nat n - 1) (-1) (-1) -> 0 <= i < Z.of_nat n.
Proof.
  rewrite range3_down. intros Hi.
  apply list_elem_of_In, in_map_iff in Hi as (k & <- & Hk).
  apply in_seq in Hk. lia.
Qed.

Lemma merge_files_no_IndexError (self : MergePDF.t) (w w' : World) (O : list Page) :
  merged_pages (MergePDF.odd_reader self) (MergePDF.even_reader self)
    (MergePDF.odd_pages self) (MergePDF.even_pages self) = inr O ->
  MergePDF.merge_files self w <> Raise IndexError w'.
Proof.
  intros HO. unfold MergePDF.merge_files, mbind, M_bind, bind.
  rewrite HO. simpl. unfold write_pdf.
  repeat case_bool_decide; simpl; discriminate.
Qed.

(** C9: when the two page counts are equal, as [check_pages] requires,
    every index the merge uses is in range: the indices of the reversing
    comprehension in the back document, and every loop index x in the front
    document and in the reversed back document; so the loop completes and
    [merge_files] never raises [IndexError]. *)
Theorem merge_accesses_in_bounds
    (self : MergePDF.t) (front back : list Page) :
  opened self front back ->
  MergePDF.odd_pages self = MergePDF.even_pages self ->
  exists reversed_even_pages,
    reversed_even (MergePDF.even_reader self) (MergePDF.even_pages self)
    = inr reversed_even_pages /\
    (forall i, i ∈ Py.range3 (MergePDF.even_pages self - 1) (-1) (-1) ->
       is_Some (Py.getitem (MergePDF.even_reader self) i)) /\
    (forall x, x ∈ Py.range (MergePDF.odd_pages self) ->
       is_Some (Py.getitem (MergePDF.odd_reader self) x) /\
       is_Some (Py.getitem reversed_even_pages x)) /\
    (exists O,
       merged_pages (MergePDF.odd_reader self) (MergePDF.even_reader self)
         (MergePDF.odd_pages self) (MergePDF.even_pages self) = inr O) /\
    (forall w w', MergePDF.merge_files self w <> Raise IndexError w').
Proof.
  intros (Ho & He & Hop & Hep) Heq. rewrite Ho, He, Hop, Hep.
  assert (Hlen : length front = length back)
    by (rewrite Hop, Hep in Heq; unfold Py.len in Heq; lia).
  exists (reverse back). split; [apply reversed_even_reverse|].
  split; [|split; [|split]].
  - intros i Hi. apply elem_of_range3_down in Hi.
    by apply getitem_in_range.
  - intros x Hx. apply elem_of_range in Hx. split.
    + by apply getitem_in_range.
    + apply getitem_in_range. unfold Py.len. rewrite length_reverse. lia.
  - eexists. by apply merged_pages_interleave.
  - intros w w'. apply merge_files_no_IndexError with (interleave front (reverse back)).
    rewrite Ho, He, Hop, Hep. by apply merged_pages_interleave.
Qed.

Lemma merge_accesses_in_bounds_witness :
  exists O,
    merged_pages (MergePDF.odd_reader self3) (MergePDF.even_reader self3)
      (MergePDF.odd_pages self3) (MergePDF.even_pages self3) = inr O.
Proof.
  destruct (merge_accesses_in_bounds self3
              [mkPage 1 0; mkPage 2 0; mkPage 3 0]
              [mkPage 11 0; mkPage 12 0; mkPage 13 0])
    as (_ & _ & _ & _ & HO & _); [repeat split | reflexivity |].
  exact HO.
Defined.

(** ** The steps of the constructor *)

Lemma open_files_run (self : MergePDF.t) (w : World) (front back : list Page) :
  files w !! MergePDF.odd self = Some front ->
  files w !! MergePDF.even self = Some back ->
  MergePDF.open_files self w
  = Ok (MergePDF.set_readers front back (Py.len front) (Py.len back) self) w.
Proof.
  intros Hf Hb. unfold MergePDF.open_files, mbind, M_bind, bind, PdfReader.
  by rewrite Hf, Hb.
Qed.

Lemma check_pages_run (self : MergePDF.t) (w : World) :
  MergePDF.check_pages self w
  = Ok (MergePDF.set_check (MergePDF.odd_pages self =? MergePDF.even_pages self) self)
       (set_stdout (stdout w ++ [if MergePDF.odd_pages self =? MergePDF.even_pages self
                                 then MsgEqual else MsgNotEqual]) w).
Proof.
  unfold MergePDF.check_pages.
  by destruct (MergePDF.odd_pages self =? MergePDF.even_pages self).
Qed.

Lemma rotate_each_ok (angle : Z) (pages : list Page) :
  angle mod 90 = 0 -> rotate_each angle pages = inr (map (turned angle) pages).
Proof.
  intros Hangle. induction pages as [|page pages IH]; [done|].
  simpl. unfold rotate. rewrite (proj2 (Z.eqb_eq _ _) Hangle). by rewrite IH.
Qed.

Lemma rotate_each_cases (angle : Z) (pages : list Page) :
  rotate_each angle pages = inl ValueError \/
  rotate_each angle pages = inr (map (turned angle) pages).
Proof.
  destruct (decide (angle mod 90 = 0)) as [Hangle|Hangle];
    [right; by apply rotate_each_ok|].
  destruct pages as [|page pages]; [by right|]. left.
  simpl. unfold rotate. by rewrite (proj2 (Z.eqb_neq _ _) Hangle).
Qed.

Lemma rotate_pages_run (self : MergePDF.t) (target : string) (angle : Z) (w : World) :
  angle mod 90 = 0 ->
  MergePDF.rotate_pages self target angle w
  = Ok (rotated target angle self)
       (set_stdout (stdout w ++ [rotate_msg target angle]) w).
Proof.
  intros Hangle. unfold MergePDF.rotate_pages, rotated, rotate_msg.
  repeat case_bool_decide; try done;
    unfold mbind, M_bind, bind; by rewrite rotate_each_ok.
Qed.

Lemma rotate_pages_invalid (self : MergePDF.t) (target : string) (angle : Z)
    (w : World) :
  target <> "odd" -> target <> "even" ->
  MergePDF.rotate_pages self target angle w
  = Ok self (set_stdout (stdout w ++ [MsgInvalidTarget]) w).
Proof.
  intros Hodd Heven. unfold MergePDF.rotate_pages.
  by rewrite !bool_decide_eq_false_2.
Qed.

(** Whatever the angle, [rotate_pages] returns the object rotated or raises
    [ValueError] and leaves the world as it was. *)
Lemma rotate_pages_cases (self : MergePDF.t) (target : string) (angle : Z)
    (w : World) :
  MergePDF.rotate_pages self target angle w = Raise ValueError w \/
  MergePDF.rotate_pages self target angle w
  = Ok (rotated target angle self)
       (set_stdout (stdout w ++ [rotate_msg target angle]) w).
Proof.
  unfold MergePDF.rotate_pages, rotated, rotate_msg.
  repeat case_bool_decide; try (by right); unfold mbind, M_bind, bind;
    match goal with |- context [rotate_each ?a ?ps] =>
      destruct (rotate_each_cases a ps) as [-> | ->]; [by left | by right]
    end.
Qed.

Lemma init_unfold (rot : option (string * Z)) (w : World) :
  MergePDF.__init__ rot w
  = match MergePDF.open_files (MergePDF.fresh (now_minute w)) w with
    | Raise e w1 => Raise e w1
    | Ok s1 w1 =>
        match MergePDF.check_pages s1 w1 with
        | Raise e w2 => Raise e w2
        | Ok s2 w2 =>
            if MergePDF.check s2 then
              match match rot with
                    | Some (target, angle) =>
                        MergePDF.rotate_pages s2 target angle w2
                    | None => Ok s2 w2
                    end with
              | Raise e w3 => Raise e w3
              | Ok s3 w3 =>
                  (self ← MergePDF.merge_files s3;
                   self ← MergePDF.move_files self;
                   print MsgFinished;;
                   mret self) w3
              end
            else Ok s2 w2
        end
    end.
Proof.
  unfold MergePDF.__init__.
  unfold mbind at 1, M_bind at 1, bind at 1, strftime_minute.
  unfold mbind at 1, M_bind at 1, bind at 1.
  destruct (MergePDF.open_files _ w) as [s1 w1|e w1]; [|done].
  unfold mbind at 1, M_bind at 1, bind at 1.
  destruct (MergePDF.check_pages s1 w1) as [s2 w2|e w2]; [|done].
  destruct (MergePDF.check s2); [|done].
  unfold mbind at 1, M_bind at 1, bind at 1.
  by destruct rot as [[target angle]|].
Qed.

Lemma init_run (rot : option (string * Z)) (w : World) (front back : list Page) :
  valid_rotation rot ->
  files w !! "PRT_FRONT_000975.pdf" = Some front ->
  files w !! "PRT_BACK_000995.pdf" = Some back ->
  MergePDF.__init__ rot w
  = if Py.len front =? Py.len back then
      (self ← MergePDF.merge_files (pre_rotated rot (loaded w front back));
       self ← MergePDF.move_files self;
       print MsgFinished;;
       mret self)
        (set_stdout (stdout w ++ [MsgEqual] ++ pre_rotation_msgs rot) w)
    else Ok (loaded w front back) (set_stdout (stdout w ++ [MsgNotEqual]) w).
Proof.
  intros Hrot Hf Hb. rewrite init_unfold, (open_files_run _ _ front back) by done.
  rewrite check_pages_run. unfold loaded.
  cbn [MergePDF.odd_pages MergePDF.even_pages MergePDF.set_readers
       MergePDF.check MergePDF.set_check].
  destruct (Py.len front =? Py.len back); [|done].
  destruct rot as [[target angle]|].
  - rewrite rotate_pages_run by done. simpl pre_rotated. simpl pre_rotation_msgs.
    cbn [stdout files dirs denied now_minute now_date set_stdout].
    rewrite <- app_assoc. reflexivity.
  - simpl pre_rotated. simpl pre_rotation_msgs. by rewrite app_nil_r.
Qed.

(** C3: when the two page counts differ, [check_pages] sets [check] to
    false and the constructor stops there: nothing is merged, and the world
    is left as it was (no output file, no archive folder, no file moved)
    but for the line the validator prints. *)
Theorem mismatch_aborts
    (rot : option (string * Z)) (w : World) (front back : list Page) :
  files w !! "PRT_FRONT_000975.pdf" = Some front ->
  files w !! "PRT_BACK_000995.pdf" = Some back ->
  Py.len front <> Py.len back ->
  exists self,
    MergePDF.__init__ rot w
    = Ok self (set_stdout (stdout w ++ [MsgNotEqual]) w) /\
    MergePDF.check self = false /\
    MergePDF.merge self = [] /\
    files (final (MergePDF.__init__ rot w)) = files w /\
    dirs (final (MergePDF.__init__ rot w)) = dirs w.
Proof.
  intros Hf Hb Hne. rewrite init_unfold, (open_files_run _ _ front back) by done.
  rewrite check_pages_run. apply Z.eqb_neq in Hne.
  cbn [MergePDF.odd_pages MergePDF.even_pages MergePDF.set_readers
       MergePDF.check MergePDF.set_check].
  rewrite Hne. eexists. by repeat split.
Qed.

Lemma mismatch_aborts_witness :
  exists self,
    MergePDF.__init__ None w_4_5 = Ok self (set_stdout [MsgNotEqual] w_4_5) /\
    MergePDF.check self = false /\
    files (final (MergePDF.__init__ None w_4_5)) = files w_4_5.
Proof.
  destruct (mismatch_aborts None w_4_5
              [mkPage 1 0; mkPage 2 0; mkPage 3 0; mkPage 4 0]
              [mkPage 11 0; mkPage 12 0; mkPage 13 0; mkPage 14 0; mkPage 15 0])
    as (self & Hrun & Hcheck & _ & Hfiles & _);
    [reflexivity | reflexivity | discriminate |].
  exists self. split; [exact Hrun|]. split; [exact Hcheck | exact Hfiles].
Defined.

(** ** Nothing in the script reads the console *)

Section Console.

Variable R : list Msg -> list Msg -> Prop.
Hypothesis R_print : forall o1 o2 m, R o1 o2 -> R (o1 ++ [m]) (o2 ++ [m]).

Ltac worlds :=
  intros [f1 d1 n1 p1 o1 m1 t1] [f2 d2 n2 p2 o2 m2 t2]
    (Hf & Hd & Hn & Hp & Hm & Ht) HR;
  simpl in Hf, Hd, Hn, Hp, Hm, Ht, HR; subst.

Ltac related := simpl; repeat split; auto.

Lemma blind_ret {A} (a : A) : console_blind R (mret a).
Proof. worlds. related. Qed.

Lemma blind_bind {A B} (m : M A) (k : A -> M B) :
  console_blind R m -> (forall a, console_blind R (k a)) ->
  console_blind R (m ≫= k).
Proof.
  intros Hm Hk w1 w2 Hd HR. specialize (Hm w1 w2 Hd HR).
  unfold mbind, M_bind, bind.
  destruct (m w1) as [a1 w1'|e1 w1'], (m w2) as [a2 w2'|e2 w2']; try done.
  destruct Hm as (-> & Hd' & HR'). by apply Hk.
Qed.

Lemma blind_lift {A} (r : Exn + A) : console_blind R (lift r).
Proof. destruct r; worlds; related. Qed.

Lemma blind_print (msg : Msg) : console_blind R (print msg).
Proof. worlds. related. Qed.

Lemma blind_strftime_date : console_blind R strftime_date.
Proof. worlds. related. Qed.

Lemma blind_os_path_exists (path : string) : console_blind R (os_path_exists path).
Proof. worlds. related. Qed.

Lemma blind_os_makedirs (path : string) : console_blind R (os_makedirs path).
Proof.
  worlds. unfold os_makedirs, exists_path. simpl.
  destruct (_ || _); [related|]. case_bool_decide; related.
Qed.

Lemma blind_write_pdf (path : string) (pages : list Page) :
  console_blind R (write_pdf path pages).
Proof. worlds. unfold write_pdf. simpl. repeat case_bool_decide; related. Qed.

Lemma blind_os_path_isdir (path : string) : console_blind R (os_path_isdir path).
Proof. worlds. related. Qed.

Lemma blind_raise {A} (e : Exn) : console_blind R (@raise A e).
Proof. worlds. related. Qed.

Lemma blind_os_rename (src dst : string) : console_blind R (os_rename src dst).
Proof.
  worlds. unfold os_rename. simpl.
  destruct (f2 !! src); [|related]. repeat case_bool_decide; related.
Qed.

Lemma blind_copy2 (src dst : string) : console_blind R (copy2 src dst).
Proof.
  worlds. unfold copy2. simpl.
  destruct (f2 !! src); [|related]. repeat case_bool_decide; related.
Qed.

Lemma blind_os_unlink (path : string) : console_blind R (os_unlink path).
Proof.
  worlds. unfold os_unlink. simpl.
  destruct (f2 !! path); repeat case_bool_decide; related.
Qed.

Lemma blind_try_except {A} (body : M A) (handler : Exn -> M A) :
  console_blind R body -> (forall e, console_blind R (handler e)) ->
  console_blind R (try_except_OSError body handler).
Proof.
  intros Hb Hh w1 w2 Hd HR. specialize (Hb w1 w2 Hd HR).
  unfold try_except_OSError.
  destruct (body w1) as [a1 w1'|e1 w1'], (body w2) as [a2 w2'|e2 w2']; try done.
  destruct Hb as (-> & Hd' & HR').
  destruct (is_OSError e2); [by apply Hh | done].
Qed.

Lemma blind_shutil_move (src dst : string) : console_blind R (shutil_move src dst).
Proof.
  unfold shutil_move.
  apply blind_bind; [apply blind_os_path_isdir|]. intros isdir.
  apply blind_bind.
  - destruct isdir; [|apply blind_ret].
    apply blind_bind; [apply blind_os_path_exists|]. intros ex.
    destruct ex; [apply blind_raise | apply blind_ret].
  - intros real_dst. apply blind_try_except; [apply blind_os_rename|].
    intros _. apply blind_bind; [apply blind_copy2|]. intros _.
    apply blind_os_unlink.
Qed.

Lemma blind_merge_files (self : MergePDF.t) :
  console_blind R (MergePDF.merge_files self).
Proof.
  unfold MergePDF.merge_files.
  apply blind_bind; [apply blind_lift|]. intros writer.
  apply blind_bind; [apply blind_write_pdf|]. intros _.
  apply blind_bind; [apply blind_print|]. intros _. apply blind_ret.
Qed.

Lemma blind_move_files (self : MergePDF.t) :
  console_blind R (MergePDF.move_files self).
Proof.
  unfold MergePDF.move_files.
  apply blind_bind; [apply blind_os_path_exists|]. intros ex.
  apply blind_bind.
  { destruct ex; simpl; [apply blind_ret | apply blind_os_makedirs]. }
  intros _. apply blind_bind; [apply blind_strftime_date|]. intros current_date.
  apply blind_bind; [|intros _; apply blind_ret].
  apply blind_try_except; [|intros e; apply blind_print].
  apply blind_bind; [apply blind_shutil_move|]. intros _.
  apply blind_bind; [apply blind_shutil_move|]. intros _. apply blind_print.
Qed.

(** What the constructor does once the pages are checked and, if asked for,
    rotated. *)
Lemma blind_merge_and_archive (self : MergePDF.t) :
  console_blind R
    (self ← MergePDF.merge_files self;
     self ← MergePDF.move_files self;
     print MsgFinished;;
     mret self).
Proof.
  apply blind_bind; [apply blind_merge_files|]. intros self1.
  apply blind_bind; [apply blind_move_files|]. intros self2.
  apply blind_bind; [apply blind_print|]. intros _. apply blind_ret.
Qed.

End Console.

(** ** [rotate_pages] *)

Lemma turned_turned (a b : Z) (p : Page) :
  turned b (turned a p) = turned (a + b) p.
Proof. unfold turned. simpl. f_equal. lia. Qed.

Lemma turned_same_view (a b : Z) (p : Page) :
  same_view (turned b (turned a p)) (turned ((a + b) mod 360) p).
Proof.
  unfold same_view, orientation, turned. simpl. split; [done|].
  rewrite <- Z.add_assoc. by rewrite Zplus_mod_idemp_r.
Qed.

Lemma map_turned_same_view (a b : Z) (ps : list Page) :
  Forall2 same_view (map (turned b) (map (turned a) ps))
    (map (turned ((a + b) mod 360)) ps).
Proof.
  induction ps as [|p ps IH]; simpl; constructor; [apply turned_same_view | done].
Qed.

Lemma same_view_refl (ps : list Page) : Forall2 same_view ps ps.
Proof. induction ps; constructor; [by split | done]. Qed.

Lemma map_turned_by (angle : Z) (ps : list Page) :
  Forall2 (turned_by angle) ps (map (turned angle) ps).
Proof. induction ps; simpl; constructor; [by split | done]. Qed.

Lemma map_turned_ids (angle : Z) (ps : list Page) :
  map page_id (map (turned angle) ps) = map page_id ps.
Proof. rewrite map_map. by apply map_ext. Qed.

Lemma multiple_of_90_sum (a b : Z) :
  a mod 90 = 0 -> b mod 90 = 0 -> ((a + b) mod 360) mod 90 = 0.
Proof.
  intros Ha Hb.
  rewrite (Z.mod_eq (a + b) 360) by lia.
  replace (a + b - 360 * ((a + b) / 360))
    with (a + b + (- 4 * ((a + b) / 360)) * 90) by lia.
  rewrite Z.mod_add by lia.
  rewrite Z.add_mod, Ha, Hb by lia. reflexivity.
Qed.

Lemma same_run_refl {A} (R : list Msg -> list Msg -> Prop) (o : outcome A) :
  (forall out, R out out) -> same_run R o o.
Proof. intros HR. destruct o; simpl; repeat split; auto. Qed.

Lemma at_most_line_print (m : Msg) (o1 o2 : list Msg) (msg : Msg) :
  at_most_line m o1 o2 -> at_most_line m (o1 ++ [msg]) (o2 ++ [msg]).
Proof.
  intros [->|(pre & post & -> & ->)]; [by left|]. right.
  exists pre, (post ++ [msg]). by rewrite <- !app_assoc.
Qed.

Lemma init_invalid_target (target : string) (angle : Z) (w : World) :
  target <> "odd" -> target <> "even" ->
  same_run (at_most_line MsgInvalidTarget)
    (MergePDF.__init__ (Some (target, angle)) w) (MergePDF.__init__ None w).
Proof.
  intros Hodd Heven. rewrite !init_unfold.
  destruct (MergePDF.open_files _ w) as [s1 w1|e w1];
    [|by apply same_run_refl; left].
  rewrite check_pages_run.
  set (s2 := MergePDF.set_check _ s1). set (w2 := set_stdout _ w1).
  destruct (MergePDF.check s2); [|by apply same_run_refl; left].
  rewrite rotate_pages_invalid by done.
  apply blind_merge_and_archive.
  - apply at_most_line_print.
  - by repeat split.
  - right. exists (stdout w2), []. simpl. by rewrite app_nil_r.
Qed.

(** C4: with the selector of the front document (['odd']) or of the back
    document (['even']) and an angle that is a multiple of 90,
    [rotate_pages] rotates every page of that document, in the page objects
    the merge reads later.  With any other selector it changes neither
    document, prints the invalid-target line and returns normally; a
    constructor that makes such a call ends as the constructor without the
    call does: same object, same disk, the console differing at most by that
    one line. *)
Theorem rotate_pages_contract
    (self : MergePDF.t) (target : string) (angle : Z) (w : World) :
  angle mod 90 = 0 ->
  (target = "odd" ->
   MergePDF.rotate_pages self target angle w
   = Ok (MergePDF.set_readers (map (turned angle) (MergePDF.odd_reader self))
           (MergePDF.even_reader self)
           (MergePDF.odd_pages self) (MergePDF.even_pages self) self)
        (set_stdout (stdout w ++ [MsgRotated "odd" angle]) w)) /\
  (target = "even" ->
   MergePDF.rotate_pages self target angle w
   = Ok (MergePDF.set_readers (MergePDF.odd_reader self)
           (map (turned angle) (MergePDF.even_reader self))
           (MergePDF.odd_pages self) (MergePDF.even_pages self) self)
        (set_stdout (stdout w ++ [MsgRotated "even" angle]) w)) /\
  (target <> "odd" -> target <> "even" ->
   MergePDF.rotate_pages self target angle w
   = Ok self (set_stdout (stdout w ++ [MsgInvalidTarget]) w) /\
   forall w0,
     same_run (at_most_line MsgInvalidTarget)
       (MergePDF.__init__ (Some (target, angle)) w0)
       (MergePDF.__init__ None w0)).
Proof.
  intros Hangle. split; [|split].
  - intros ->. by rewrite rotate_pages_run.
  - intros ->. by rewrite rotate_pages_run.
  - intros Hodd Heven. split; [by apply rotate_pages_invalid|].
    intros w0. by apply init_invalid_target.
Qed.

Lemma rotate_pages_contract_witness :
  MergePDF.rotate_pages self3 "even" 180 w_3_3
  = Ok (MergePDF.set_readers [mkPage 1 0; mkPage 2 0; mkPage 3 0]
          [mkPage 11 180; mkPage 12 180; mkPage 13 180] 3 3 self3)
       (set_stdout [MsgRotated "even" 180] w_3_3).
Proof.
  destruct (rotate_pages_contract self3 "even" 180 w_3_3) as (_ & Heven & _);
    [reflexivity|].
  exact (Heven eq_refl).
Defined.

Lemma rotated_odd (angle : Z) (self : MergePDF.t) :
  rotated "odd" angle self
  = MergePDF.set_readers (map (turned angle) (MergePDF.odd_reader self))
      (MergePDF.even_reader self)
      (MergePDF.odd_pages self) (MergePDF.even_pages self) self.
Proof. reflexivity. Qed.

Lemma rotated_even (angle : Z) (self : MergePDF.t) :
  rotated "even" angle self
  = MergePDF.set_readers (MergePDF.odd_reader self)
      (map (turned angle) (MergePDF.even_reader self))
      (MergePDF.odd_pages self) (MergePDF.even_pages self) self.
Proof. reflexivity. Qed.

Lemma rotated_invalid (target : string) (angle : Z) (self : MergePDF.t) :
  target <> "odd" -> target <> "even" -> rotated target angle self = self.
Proof.
  intros Hodd Heven. unfold rotated. by rewrite !bool_decide_eq_false_2.
Qed.

Lemma map_turned_twice (a : Z) (ps : list Page) :
  map (turned a) (map (turned a) ps) = map (turned (2 * a)) ps.
Proof.
  rewrite map_map. apply map_ext. intros p. rewrite turned_turned.
  f_equal. lia.
Qed.

(** C5: on either document, rotating by a and then by b, both multiples of
    90, leaves every page as one rotation by (a+b) mod 360 does: the same
    pages in the same order, each with the same rotation modulo 360 (the
    rotation entry itself is the sum of the angles applied).  Rotating
    twice by a is exactly rotating once by 2a. *)
Theorem rotation_composes
    (self : MergePDF.t) (target : string) (a b : Z) (w : World) :
  a mod 90 = 0 -> b mod 90 = 0 ->
  exists s1 w1 s2 w2 s3 w3,
    MergePDF.rotate_pages self target a w = Ok s1 w1 /\
    MergePDF.rotate_pages s1 target b w1 = Ok s2 w2 /\
    ((a + b) mod 360) mod 90 = 0 /\
    MergePDF.rotate_pages self target ((a + b) mod 360) w = Ok s3 w3 /\
    Forall2 same_view (MergePDF.odd_reader s2) (MergePDF.odd_reader s3) /\
    Forall2 same_view (MergePDF.even_reader s2) (MergePDF.even_reader s3) /\
    same_disk w2 w3 /\
    (a = b ->
     exists w4, MergePDF.rotate_pages self target (2 * a) w = Ok s2 w4 /\
                same_disk w2 w4).
Proof.
  intros Ha Hb.
  pose proof (multiple_of_90_sum a b Ha Hb) as Hab.
  do 6 eexists.
  split; [by apply rotate_pages_run|]. split; [by apply rotate_pages_run|].
  split; [done|]. split; [by apply rotate_pages_run|].
  assert (H2a : a = b -> (2 * a) mod 90 = 0).
  { intros ->. rewrite Z.mul_comm. rewrite <- Z.mul_mod_idemp_l, Hb by lia. done. }
  destruct (decide (target = "odd")) as [->|Hodd];
    [|destruct (decide (target = "even")) as [->|Heven]].
  - rewrite !rotated_odd. simpl.
    split; [apply map_turned_same_view|]. split; [apply same_view_refl|].
    split; [done|]. intros Heq. specialize (H2a Heq). subst b. eexists.
    rewrite rotate_pages_run, rotated_odd by done.
    rewrite map_turned_twice. split; [reflexivity | by repeat split].
  - rewrite !rotated_even. simpl.
    split; [apply same_view_refl|]. split; [apply map_turned_same_view|].
    split; [done|]. intros Heq. specialize (H2a Heq). subst b. eexists.
    rewrite rotate_pages_run, rotated_even by done.
    rewrite map_turned_twice. split; [reflexivity | by repeat split].
  - rewrite !rotated_invalid by done.
    split; [apply same_view_refl|]. split; [apply same_view_refl|].
    split; [done|]. intros Heq. specialize (H2a Heq). subst b. eexists.
    rewrite rotate_pages_run by done.
    rewrite rotated_invalid by done. split; [reflexivity | by repeat split].
Qed.

Lemma rotation_composes_witness :
  exists s1 w1 s2 w2 s3 w3,
    MergePDF.rotate_pages self3 "even" 270 w_3_3 = Ok s1 w1 /\
    MergePDF.rotate_pages s1 "even" 180 w1 = Ok s2 w2 /\
    MergePDF.rotate_pages self3 "even" 90 w_3_3 = Ok s3 w3 /\
    Forall2 same_view (MergePDF.even_reader s2) (MergePDF.even_reader s3).
Proof.
  destruct (rotation_composes self3 "even" 270 180 w_3_3)
    as (s1 & w1 & s2 & w2 & s3 & w3 & H1 & H2 & _ & H3 & _ & Hview & _);
    [reflexivity | reflexivity |].
  exists s1, w1, s2, w2, s3, w3. repeat split; assumption.
Defined.

(** C10: with a valid selector, [rotate_pages] leaves both documents with
    the pages they had, in the order they had, and the page counts as they
    were; the pages of the selected document differ from before in their
    rotation only, the other document is untouched, and nothing but the
    console changes in the world. *)
Theorem rotation_frame
    (self : MergePDF.t) (target : string) (angle : Z) (w : World) :
  target = "odd" \/ target = "even" -> angle mod 90 = 0 ->
  exists self',
    MergePDF.rotate_pages self target angle w
    = Ok self' (set_stdout (stdout w ++ [MsgRotated target angle]) w) /\
    length (MergePDF.odd_reader self') = length (MergePDF.odd_reader self) /\
    length (MergePDF.even_reader self') = length (MergePDF.even_reader self) /\
    map page_id (MergePDF.odd_reader self') = map page_id (MergePDF.odd_reader self) /\
    map page_id (MergePDF.even_reader self') = map page_id (MergePDF.even_reader self) /\
    MergePDF.odd_pages self' = MergePDF.odd_pages self /\
    MergePDF.even_pages self' = MergePDF.even_pages self /\
    self' = MergePDF.set_readers (MergePDF.odd_reader self')
              (MergePDF.even_reader self')
              (MergePDF.odd_pages self) (MergePDF.even_pages self) self /\
    (target = "odd" ->
     MergePDF.even_reader self' = MergePDF.even_reader self /\
     Forall2 (turned_by angle) (MergePDF.odd_reader self) (MergePDF.odd_reader self')) /\
    (target = "even" ->
     MergePDF.odd_reader self' = MergePDF.odd_reader self /\
     Forall2 (turned_by angle) (MergePDF.even_reader self) (MergePDF.even_reader self')).
Proof.
  intros Htarget Hangle. exists (rotated target angle self).
  rewrite rotate_pages_run by done.
  destruct Htarget as [-> | ->];
    [rewrite rotated_odd | rewrite rotated_even]; simpl;
    rewrite ?length_map, ?map_turned_ids;
    repeat split; try done; try (intros; apply map_turned_by).
Qed.

Lemma rotation_frame_witness :
  exists self',
    MergePDF.rotate_pages self3 "even" 180 w_3_3
    = Ok self' (set_stdout [MsgRotated "even" 180] w_3_3) /\
    MergePDF.odd_reader self' = MergePDF.odd_reader self3 /\
    map page_id (MergePDF.even_reader self') = [11; 12; 13]%nat.
Proof.
  destruct (rotation_frame self3 "even" 180 w_3_3)
    as (self' & Hrun & _ & _ & _ & Hids & _ & _ & _ & _ & Heven);
    [right; reflexivity | reflexivity |].
  exists self'. split; [exact Hrun|].
  split; [exact (proj1 (Heven eq_refl)) | exact Hids].
Defined.

(** ** [move_files] *)

Lemma string_app_assoc (a b c : string) : (a +:+ b) +:+ c = a +:+ b +:+ c.
Proof.
  induction a as [|x a IH]; [done|].
  change (String x ((a +:+ b) +:+ c) = String x (a +:+ b +:+ c)). by f_equal.
Qed.

Lemma under_join (folder rest name : string) :
  under folder (os_path_join (os_path_join folder rest) name).
Proof.
  exists (rest +:+ "/" +:+ name). unfold os_path_join.
  by rewrite !string_app_assoc.
Qed.

(** The rename, or else the copy and the removal: an [OSError] with nothing
    changed; or the copy made and the removal refused; or the file moved. *)
Lemma rename_or_copy_spec (src real_dst : string) (w : World) :
  real_dst ∉ dirs w ->
  (exists e,
     is_OSError e = true /\
     try_except_OSError (os_rename src real_dst)
       (fun _ => copy2 src real_dst;; os_unlink src) w = Raise e w) \/
  (exists doc,
     files w !! src = Some doc /\ src ∈ pinned w /\
     try_except_OSError (os_rename src real_dst)
       (fun _ => copy2 src real_dst;; os_unlink src) w
     = Raise (PermissionError src)
         (set_files (<[real_dst := doc]> (files w)) w)) \/
  (exists doc,
     files w !! src = Some doc /\ (src ∉ pinned w) /\
     try_except_OSError (os_rename src real_dst)
       (fun _ => copy2 src real_dst;; os_unlink src) w
     = Ok tt (set_files (<[real_dst := doc]> (delete src (files w))) w)).
Proof.
  intros Hdir.
  assert (Hcopy : forall doc, files w !! src = Some doc ->
            copy2 src real_dst w =
            if bool_decide (real_dst ∈ denied w) then Raise (PermissionError real_dst) w
            else Ok tt (set_files (<[real_dst := doc]> (files w)) w)).
  { intros doc Hdoc. unfold copy2.
    rewrite !(bool_decide_eq_false_2 (real_dst ∈ dirs w)) by done.
    cbv zeta. by rewrite Hdoc. }
  unfold try_except_OSError, os_rename.
  destruct (files w !! src) as [doc|] eqn:Hsrc.
  2: { left. exists (FileNotFoundError src). split; [done|].
       cbn [is_OSError]. unfold mbind, M_bind, bind, copy2. cbv zeta.
       by rewrite Hsrc. }
  rewrite (bool_decide_eq_false_2 (real_dst ∈ dirs w)) by done.
  destruct (decide (src ∈ pinned w)) as [Hpin|Hpin].
  - rewrite (bool_decide_eq_true_2 (src ∈ pinned w)) by done.
    cbn [is_OSError]. unfold mbind, M_bind, bind.
    rewrite (Hcopy doc eq_refl).
    destruct (decide (real_dst ∈ denied w)) as [Hden|Hden].
    + rewrite bool_decide_eq_true_2 by done.
      left. by exists (PermissionError real_dst).
    + rewrite bool_decide_eq_false_2 by done.
      right. left. exists doc. split; [done|]. split; [done|].
      unfold os_unlink. cbn [files set_files pinned].
      assert (Hstill : is_Some (<[real_dst:=doc]> (files w) !! src)).
      { destruct (decide (real_dst = src)) as [->|Hne];
          [rewrite lookup_insert_eq | rewrite lookup_insert_ne by done]; eauto. }
      destruct Hstill as [doc' ->].
      by rewrite bool_decide_eq_true_2 by done.
  - rewrite (bool_decide_eq_false_2 (src ∈ pinned w)) by done.
    destruct (decide (real_dst ∈ denied w)) as [Hden|Hden].
    + rewrite !bool_decide_eq_true_2 by done. cbn [is_OSError].
      unfold mbind, M_bind, bind. rewrite (Hcopy doc eq_refl).
      rewrite bool_decide_eq_true_2 by done.
      left. by exists (PermissionError real_dst).
    + rewrite bool_decide_eq_false_2 by done.
      right. right. by exists doc.
Qed.

(** [shutil.move] raises an [OSError] and changes nothing; or it raises
    [PermissionError] with the document copied to the destination (or
    inside it) and the source, which cannot be taken away, left in place; or
    it puts the document at the destination and removes the source. *)
Lemma shutil_move_spec (src dst : string) (w : World) :
  (exists e, is_OSError e = true /\ shutil_move src dst w = Raise e w) \/
  (exists doc real_dst,
     files w !! src = Some doc /\ src ∈ pinned w /\
     (real_dst = dst \/ real_dst = os_path_join dst (os_path_basename src)) /\
     shutil_move src dst w
     = Raise (PermissionError src)
         (set_files (<[real_dst := doc]> (files w)) w)) \/
  (exists doc real_dst,
     files w !! src = Some doc /\ (src ∉ pinned w) /\
     (real_dst = dst \/ real_dst = os_path_join dst (os_path_basename src)) /\
     shutil_move src dst w
     = Ok tt (set_files (<[real_dst := doc]> (delete src (files w))) w)).
Proof.
  assert (Hgo : forall real_dst,
    real_dst ∉ dirs w ->
    (real_dst = dst \/ real_dst = os_path_join dst (os_path_basename src)) ->
    shutil_move src dst w
    = try_except_OSError (os_rename src real_dst)
        (fun _ => copy2 src real_dst;; os_unlink src) w ->
    (exists e, is_OSError e = true /\ shutil_move src dst w = Raise e w) \/
    (exists doc real_dst,
       files w !! src = Some doc /\ src ∈ pinned w /\
       (real_dst = dst \/ real_dst = os_path_join dst (os_path_basename src)) /\
       shutil_move src dst w
       = Raise (PermissionError src)
           (set_files (<[real_dst := doc]> (files w)) w)) \/
    (exists doc real_dst,
       files w !! src = Some doc /\ (src ∉ pinned w) /\
       (real_dst = dst \/ real_dst = os_path_join dst (os_path_basename src)) /\
       shutil_move src dst w
       = Ok tt (set_files (<[real_dst := doc]> (delete src (files w))) w))).
  { intros real_dst Hdir Hreal ->.
    destruct (rename_or_copy_spec src real_dst w Hdir)
      as [(e & He & ->)|[(doc & Hdoc & Hpin & ->)|(doc & Hdoc & Hpin & ->)]].
    - left. by exists e.
    - right. left. by exists doc, real_dst.
    - right. right. by exists doc, real_dst. }
  destruct (decide (dst ∈ dirs w)) as [Hdst|Hdst].
  - destruct (exists_path (os_path_join dst (os_path_basename src)) w) eqn:Hex.
    + left. exists (ShutilError (os_path_join dst (os_path_basename src))).
      split; [done|].
      unfold shutil_move, mbind, M_bind, bind, os_path_isdir, os_path_exists.
      rewrite bool_decide_eq_true_2 by done. by rewrite Hex.
    + apply (Hgo (os_path_join dst (os_path_basename src))); [|by right|].
      * intros Hin. unfold exists_path in Hex.
        rewrite (bool_decide_eq_true_2 _ Hin), orb_true_r in Hex. done.
      * unfold shutil_move, mbind, M_bind, bind, os_path_isdir, os_path_exists.
        rewrite bool_decide_eq_true_2 by done. by rewrite Hex.
  - apply (Hgo dst); [done | by left|].
    unfold shutil_move, mbind, M_bind, bind, os_path_isdir.
    by rewrite bool_decide_eq_false_2 by done.
Qed.

Lemma os_makedirs_spec (path : string) (w : World) :
  (exists e, is_OSError e = true /\ os_makedirs path w = Raise e w) \/
  os_makedirs path w = Ok tt (set_dirs ({[path]} ∪ dirs w) w).
Proof.
  unfold os_makedirs.
  destruct (exists_path path w); [left; by exists (FileExistsError path)|].
  case_bool_decide; [left; by exists (PermissionError path) | by right].
Qed.

Lemma move_files_unfold (self : MergePDF.t) (w : World) :
  MergePDF.move_files self w
  = match (if exists_path (MergePDF.archive_folder self) w then Ok tt w
           else os_makedirs (MergePDF.archive_folder self) w) with
    | Raise e w1 => Raise e w1
    | Ok _ w1 =>
        match shutil_move (MergePDF.odd self)
                (archived_as self w (MergePDF.odd self)) w1 with
        | Raise e w2 =>
            if is_OSError e
            then Ok self (set_stdout (stdout w2 ++ [MsgMoveError e]) w2)
            else Raise e w2
        | Ok _ w2 =>
            match shutil_move (MergePDF.even self)
                    (archived_as self w (MergePDF.even self)) w2 with
            | Raise e w3 =>
                if is_OSError e
                then Ok self (set_stdout (stdout w3 ++ [MsgMoveError e]) w3)
                else Raise e w3
            | Ok _ w3 =>
                Ok self (set_stdout
                           (stdout w3 ++ [MsgMoved (MergePDF.archive_folder self)])
                           w3)
            end
        end
    end.
Proof.
  unfold MergePDF.move_files, archived_as.
  unfold mbind, M_bind, bind, os_path_exists, strftime_date,
    try_except_OSError, mret, M_ret, ret.
  destruct (exists_path _ w) eqn:Hex; cbn [negb]; cbv beta iota.
  - destruct (shutil_move (MergePDF.odd self) _ _) as [[] w2|e2 w2];
      [|by destruct (is_OSError e2)].
    destruct (shutil_move (MergePDF.even self) _ _) as [[] w3|e3 w3];
      [done|by destruct (is_OSError e3)].
  - unfold os_makedirs. rewrite Hex. case_bool_decide; [done|].
    cbn [now_date set_dirs].
    destruct (shutil_move (MergePDF.odd self) _ _) as [[] w2|e2 w2];
      [|by destruct (is_OSError e2)].
    destruct (shutil_move (MergePDF.even self) _ _) as [[] w3|e3 w3];
      [done|by destruct (is_OSError e3)].
Qed.

(** ** The constructor up to the merge *)

Lemma pre_rotated_names (rot : option (string * Z)) (self : MergePDF.t) :
  MergePDF.odd (pre_rotated rot self) = MergePDF.odd self /\
  MergePDF.even (pre_rotated rot self) = MergePDF.even self /\
  MergePDF.merged (pre_rotated rot self) = MergePDF.merged self /\
  MergePDF.archive_folder (pre_rotated rot self) = MergePDF.archive_folder self.
Proof.
  destruct rot as [[target angle]|]; [|done]. simpl. unfold rotated.
  by repeat case_bool_decide.
Qed.

Lemma pre_rotated_opened (rot : option (string * Z)) (self : MergePDF.t)
    (front back : list Page) :
  opened self front back ->
  exists front' back',
    opened (pre_rotated rot self) front' back' /\
    length front' = length front /\ length back' = length back.
Proof.
  intros (Ho & He & Hop & Hep).
  destruct rot as [[target angle]|]; simpl; [|by exists front, back].
  unfold rotated, opened. repeat case_bool_decide; simpl; do 2 eexists;
    rewrite ?Ho, ?He, ?Hop, ?Hep;
    (split; [split; [reflexivity|split; [reflexivity|]]|]);
    unfold Py.len; rewrite ?length_map; done.
Qed.

Lemma init_after_merge (rot : option (string * Z)) (w : World)
    (front back : list Page) :
  valid_rotation rot ->
  files w !! "PRT_FRONT_000975.pdf" = Some front ->
  files w !! "PRT_BACK_000995.pdf" = Some back ->
  Py.len front = Py.len back ->
  writable ("merged_" +:+ now_minute w +:+ ".pdf") w ->
  MergePDF.__init__ rot w
  = (self ← MergePDF.move_files (merged_self rot w front back);
     print MsgFinished;;
     mret self) (merged_world rot w front back).
Proof.
  intros Hrot Hf Hb Hlen Hw. rewrite (init_run rot w front back Hrot Hf Hb).
  rewrite (proj2 (Z.eqb_eq _ _) Hlen).
  destruct (pre_rotated_opened rot (loaded w front back) front back)
    as (front' & back' & Hopen & Hlf & Hlb).
  { unfold loaded. by repeat split. }
  destruct (pre_rotated_names rot (loaded w front back)) as (_ & _ & Hm & _).
  unfold mbind at 1, M_bind at 1, bind at 1.
  rewrite (merge_files_run _ _ front' back' Hopen).
  - unfold merged_self, merged_world, merged_doc.
    destruct Hopen as (-> & -> & _). rewrite Hm.
    cbn [stdout set_stdout files dirs denied now_minute now_date set_files].
    rewrite <- !app_assoc. reflexivity.
  - unfold Py.len in Hlen. lia.
  - rewrite Hm. exact Hw.
Qed.

(** The outcomes of [move_files]: the folder cannot be made and the
    exception escapes; or the first move fails with nothing changed, is
    reported, and the second is not made; or the first move leaves its copy
    in the archive with the source in place, is reported, and the second is
    not made; or the second move fails with nothing more changed and is
    reported; or the second move leaves its copy with the source in place and
    is reported; or both inputs are moved. *)
Lemma move_files_cases (self : MergePDF.t) (w : World) :
  (exists e, is_OSError e = true /\ MergePDF.move_files self w = Raise e w) \/
  exists w1,
    files w1 = files w /\ stdout w1 = stdout w /\ pinned w1 = pinned w /\
    ((exists e,
        MergePDF.move_files self w
        = Ok self (set_stdout (stdout w ++ [MsgMoveError e]) w1)) \/
     (exists doc d,
        files w !! MergePDF.odd self = Some doc /\
        MergePDF.odd self ∈ pinned w /\
        (d = archived_as self w (MergePDF.odd self) \/
         d = os_path_join (archived_as self w (MergePDF.odd self))
               (os_path_basename (MergePDF.odd self))) /\
        MergePDF.move_files self w
        = Ok self (set_stdout
                     (stdout w ++ [MsgMoveError (PermissionError (MergePDF.odd self))])
                     (set_files (<[d := doc]> (files w)) w1))) \/
     (exists e doc d,
        files w !! MergePDF.odd self = Some doc /\
        (MergePDF.odd self ∉ pinned w) /\
        (d = archived_as self w (MergePDF.odd self) \/
         d = os_path_join (archived_as self w (MergePDF.odd self))
               (os_path_basename (MergePDF.odd self))) /\
        MergePDF.move_files self w
        = Ok self (set_stdout (stdout w ++ [MsgMoveError e])
                     (set_files (<[d := doc]> (delete (MergePDF.odd self) (files w)))
                        w1))) \/
     (exists doc d doc' d',
        files w !! MergePDF.odd self = Some doc /\
        (MergePDF.odd self ∉ pinned w) /\
        MergePDF.even self ∈ pinned w /\
        <[d := doc]> (delete (MergePDF.odd self) (files w)) !! MergePDF.even self
        = Some doc' /\
        (d = archived_as self w (MergePDF.odd self) \/
         d = os_path_join (archived_as self w (MergePDF.odd self))
               (os_path_basename (MergePDF.odd self))) /\
        (d' = archived_as self w (MergePDF.even self) \/
         d' = os_path_join (archived_as self w (MergePDF.even self))
                (os_path_basename (MergePDF.even self))) /\
        MergePDF.move_files self w
        = Ok self (set_stdout
                     (stdout w ++ [MsgMoveError (PermissionError (MergePDF.even self))])
                     (set_files
                        (<[d' := doc']>
                           (<[d := doc]> (delete (MergePDF.odd self) (files w))))
                        w1))) \/
     (exists doc d doc' d',
        files w !! MergePDF.odd self = Some doc /\
        (MergePDF.odd self ∉ pinned w) /\
        (MergePDF.even self ∉ pinned w) /\
        <[d := doc]> (delete (MergePDF.odd self) (files w)) !! MergePDF.even self
        = Some doc' /\
        (d = archived_as self w (MergePDF.odd self) \/
         d = os_path_join (archived_as self w (MergePDF.odd self))
               (os_path_basename (MergePDF.odd self))) /\
        (d' = archived_as self w (MergePDF.even self) \/
         d' = os_path_join (archived_as self w (MergePDF.even self))
                (os_path_basename (MergePDF.even self))) /\
        MergePDF.move_files self w
        = Ok self (set_stdout (stdout w ++ [MsgMoved (MergePDF.archive_folder self)])
                     (set_files
                        (<[d' := doc']>
                           (delete (MergePDF.even self)
                              (<[d := doc]> (delete (MergePDF.odd self) (files w)))))
                        w1)))).
Proof.
  rewrite move_files_unfold.
  assert (Hdir :
    (exists e, is_OSError e = true /\
               (if exists_path (MergePDF.archive_folder self) w then Ok tt w
                else os_makedirs (MergePDF.archive_folder self) w) = Raise e w) \/
    exists w1, files w1 = files w /\ stdout w1 = stdout w /\
      pinned w1 = pinned w /\
      (if exists_path (MergePDF.archive_folder self) w then Ok tt w
       else os_makedirs (MergePDF.archive_folder self) w) = Ok tt w1).
  { destruct (exists_path _ w); [right; by exists w|].
    destruct (os_makedirs_spec (MergePDF.archive_folder self) w)
      as [(e & He & ->)| ->]; [left; by exists e|].
    right. by exists (set_dirs ({[MergePDF.archive_folder self]} ∪ dirs w) w). }
  destruct Hdir as [(e & He & ->)|(w1 & Hfiles & Hout & Hpins & ->)];
    [left; by exists e|].
  right. exists w1. split; [done|]. split; [done|]. split; [done|].
  destruct (shutil_move_spec (MergePDF.odd self)
              (archived_as self w (MergePDF.odd self)) w1)
    as [(e & He & ->)|[(doc & d & Hdoc & Hpin & Hd & ->)
                      |(doc & d & Hdoc & Hpin & Hd & ->)]].
  { rewrite He, Hout. left. by exists e. }
  { right. left. exists doc, d. rewrite <- Hfiles, <- Hpins.
    split; [done|]. split; [done|]. split; [done|].
    cbn [is_OSError stdout set_files]. by rewrite Hout. }
  right. right.
  destruct (shutil_move_spec (MergePDF.even self)
              (archived_as self w (MergePDF.even self))
              (set_files (<[d:=doc]> (delete (MergePDF.odd self) (files w1))) w1))
    as [(e & He & ->)|[(doc' & d' & Hdoc' & Hpin' & Hd' & ->)
                      |(doc' & d' & Hdoc' & Hpin' & Hd' & ->)]].
  { rewrite He. left. exists e, doc, d. rewrite <- Hfiles, <- Hpins.
    split; [done|]. split; [done|]. split; [done|].
    cbn [stdout set_files]. by rewrite Hout. }
  { right. left. exists doc, d, doc', d'. rewrite <- Hfiles, <- Hpins.
    split; [done|]. split; [done|]. split; [done|]. split; [done|].
    split; [done|]. split; [done|].
    cbn [is_OSError stdout set_files files]. by rewrite Hout. }
  right. right. exists doc, d, doc', d'. rewrite <- Hfiles, <- Hpins.
  split; [done|]. split; [done|]. split; [done|]. split; [done|].
  split; [done|]. split; [done|].
  cbn [stdout set_files files]. by rewrite Hout.
Qed.

(** [move_files] returns its receiver, or lets the [OSError] of a folder
    that cannot be made escape. *)
Lemma move_files_ends (self : MergePDF.t) (w : World) :
  (exists e, is_OSError e = true /\ MergePDF.move_files self w = Raise e w) \/
  exists w', MergePDF.move_files self w = Ok self w'.
Proof.
  destruct (move_files_cases self w)
    as [(e & He & Hrun)|(w1 & _ & _ & _ &
         [(e & ->)
         |[(doc & d & _ & _ & _ & ->)
          |[(e & doc & d & _ & _ & _ & ->)
           |[(doc & d & doc' & d' & _ & _ & _ & _ & _ & _ & ->)
            |(doc & d & doc' & d' & _ & _ & _ & _ & _ & _ & ->)]]]])];
    [left; by exists e|right; by eexists..].
Qed.

(** ** Names that cannot coincide *)

Lemma app_head_neq (c1 c2 : ascii) (s1 s2 t1 t2 : string) :
  c1 <> c2 -> String c1 s1 +:+ t1 <> String c2 s2 +:+ t2.
Proof.
  intros Hne H. apply Hne.
  change (String c1 (s1 +:+ t1) = String c2 (s2 +:+ t2)) in H. congruence.
Qed.

Lemma app_head_neq_name (c1 c2 : ascii) (s1 s2 t1 : string) :
  c1 <> c2 -> String c1 s1 +:+ t1 <> String c2 s2.
Proof.
  intros Hne H. apply Hne.
  change (String c1 (s1 +:+ t1) = String c2 s2) in H. congruence.
Qed.

Lemma archived_under (self : MergePDF.t) (w : World) (name d : string) :
  d = archived_as self w name \/
  d = os_path_join (archived_as self w name) (os_path_basename name) ->
  under (MergePDF.archive_folder self) d.
Proof.
  intros [-> | ->]; [by eexists | apply under_join].
Qed.

Lemma merged_not_archived (stamp d : string) :
  under "archive" d -> "merged_" +:+ stamp +:+ ".pdf" <> d.
Proof. intros [rest ->]. by apply app_head_neq. Qed.

Lemma merged_self_names (rot : option (string * Z)) (w : World)
    (front back : list Page) :
  MergePDF.odd (merged_self rot w front back) = "PRT_FRONT_000975.pdf" /\
  MergePDF.even (merged_self rot w front back) = "PRT_BACK_000995.pdf" /\
  MergePDF.merged (merged_self rot w front back)
  = "merged_" +:+ now_minute w +:+ ".pdf" /\
  MergePDF.archive_folder (merged_self rot w front back) = "archive".
Proof.
  destruct (pre_rotated_names rot (loaded w front back)) as (Ho & He & Hm & Ha).
  unfold merged_self. simpl. by rewrite Ho, He, Hm, Ha.
Qed.

Lemma merged_world_lookup (rot : option (string * Z)) (w : World)
    (front back : list Page) :
  files (merged_world rot w front back) !! ("merged_" +:+ now_minute w +:+ ".pdf")
  = Some (merged_doc rot w front back).
Proof. unfold merged_world. simpl. apply lookup_insert_eq. Qed.

Lemma merged_world_inputs (rot : option (string * Z)) (w : World)
    (front back : list Page) (name : string) :
  name = "PRT_FRONT_000975.pdf" \/ name = "PRT_BACK_000995.pdf" ->
  files (merged_world rot w front back) !! name = files w !! name.
Proof.
  intros Hname. unfold merged_world. simpl. apply lookup_insert_ne.
  destruct Hname as [-> | ->]; by apply app_head_neq_name.
Qed.



(** ** The constructor from the merge on *)

Lemma final_then_finished (m : M MergePDF.t) (w : World) :
  final ((self ← m; print MsgFinished;; mret self) w)
  = match m w with
    | Ok _ w' => set_stdout (stdout w' ++ [MsgFinished]) w'
    | Raise _ w' => w'
    end.
Proof. unfold mbind, M_bind, bind. by destruct (m w). Qed.

Lemma input_not_archived (name d : string) :
  name = "PRT_FRONT_000975.pdf" \/ name = "PRT_BACK_000995.pdf" ->
  under "archive" d -> name <> d.
Proof.
  intros Hname [rest ->] H. symmetry in H. revert H.
  destruct Hname as [-> | ->]; by apply app_head_neq_name.
Qed.

(** How the constructor ends once the merge is written: the exception of
    a folder that cannot be made escapes; or the first move fails with
    nothing changed; or the first move leaves a copy of the front scan in the
    archive and the scan in place; or the second move fails with the front
    scan archived; or the second move leaves a copy of the back scan in the
    archive and the scan in place; or both inputs are moved. *)
Lemma init_archiving_cases (rot : option (string * Z)) (w : World)
    (front back : list Page) :
  valid_rotation rot ->
  files w !! "PRT_FRONT_000975.pdf" = Some front ->
  files w !! "PRT_BACK_000995.pdf" = Some back ->
  Py.len front = Py.len back ->
  writable ("merged_" +:+ now_minute w +:+ ".pdf") w ->
  (exists e, MergePDF.__init__ rot w = Raise e (merged_world rot w front back)) \/
  exists w1 : World,
    files w1 = files (merged_world rot w front back) /\
    stdout w1 = stdout (merged_world rot w front back) /\
    ((exists e,
        MergePDF.__init__ rot w
        = Ok (merged_self rot w front back)
             (set_stdout (stdout w1 ++ [MsgMoveError e; MsgFinished]) w1)) \/
     (exists e d,
        under "archive" d /\
        MergePDF.__init__ rot w
        = Ok (merged_self rot w front back)
             (set_stdout (stdout w1 ++ [MsgMoveError e; MsgFinished])
                (set_files (<[d := front]> (files w1)) w1))) \/
     (exists e d,
        under "archive" d /\
        MergePDF.__init__ rot w
        = Ok (merged_self rot w front back)
             (set_stdout (stdout w1 ++ [MsgMoveError e; MsgFinished])
                (set_files (<[d := front]> (delete "PRT_FRONT_000975.pdf" (files w1)))
                   w1))) \/
     (exists e d d',
        under "archive" d /\ under "archive" d' /\
        MergePDF.__init__ rot w
        = Ok (merged_self rot w front back)
             (set_stdout (stdout w1 ++ [MsgMoveError e; MsgFinished])
                (set_files
                   (<[d' := back]>
                      (<[d := front]> (delete "PRT_FRONT_000975.pdf" (files w1))))
                   w1))) \/
     (exists d d',
        under "archive" d /\ under "archive" d' /\
        MergePDF.__init__ rot w
        = Ok (merged_self rot w front back)
             (set_stdout (stdout w1 ++ [MsgMoved "archive"; MsgFinished])
                (set_files
                   (<[d' := back]>
                      (delete "PRT_BACK_000995.pdf"
                         (<[d := front]> (delete "PRT_FRONT_000975.pdf" (files w1)))))
                   w1)))).
Proof.
  intros Hrot Hf Hb Hlen Hw.
  rewrite (init_after_merge rot w front back) by done.
  destruct (merged_self_names rot w front back) as (Ho & He & Hm & Ha).
  pose proof (merged_world_inputs rot w front back "PRT_FRONT_000975.pdf")
    as Hfront.
  rewrite Hf in Hfront. specialize (Hfront (or_introl eq_refl)).
  pose proof (merged_world_inputs rot w front back "PRT_BACK_000995.pdf")
    as Hback.
  rewrite Hb in Hback. specialize (Hback (or_intror eq_refl)).
  set (s := merged_self rot w front back) in *.
  set (wm := merged_world rot w front back) in *.
  clearbody s wm. unfold mbind, M_bind, bind.
  assert (Hsecond : forall d doc',
    under "archive" d ->
    <[d := front]> (delete "PRT_FRONT_000975.pdf" (files wm))
      !! "PRT_BACK_000995.pdf" = Some doc' ->
    doc' = back).
  { intros d doc' Hd.
    rewrite lookup_insert_ne
      by (apply not_eq_sym, input_not_archived; [by right | done]).
    rewrite lookup_delete_ne by done. congruence. }
  destruct (move_files_cases s wm)
    as [(e & _ & Hrun)|(w1 & Hf1 & Ho1 & _ &
         [(e & Hrun)
         |[(doc & d & Hdoc & _ & Hd & Hrun)
          |[(e & doc & d & Hdoc & _ & Hd & Hrun)
           |[(doc & d & doc' & d' & Hdoc & _ & _ & Hdoc' & Hd & Hd' & Hrun)
            |(doc & d & doc' & d' & Hdoc & _ & _ & Hdoc' & Hd & Hd' & Hrun)]]]])];
    rewrite Hrun; [left; by exists e|right; exists w1; (do 2 (split; [done|]))..].
  - left. exists e. unfold print, mret, M_ret, ret.
    cbn [stdout set_stdout]. by rewrite <- Ho1, <- app_assoc.
  - apply archived_under in Hd. rewrite Ha in Hd. rewrite Ho in *.
    assert (doc = front) as -> by congruence.
    right. left. exists (PermissionError "PRT_FRONT_000975.pdf"), d.
    split; [done|]. unfold print, mret, M_ret, ret.
    cbn [stdout set_stdout set_files]. by rewrite <- Ho1, <- Hf1, <- app_assoc.
  - apply archived_under in Hd. rewrite Ha in Hd. rewrite Ho in *.
    assert (doc = front) as -> by congruence.
    right. right. left. exists e, d. split; [done|].
    unfold print, mret, M_ret, ret.
    cbn [stdout set_stdout set_files]. by rewrite <- Ho1, <- Hf1, <- app_assoc.
  - apply archived_under in Hd, Hd'. rewrite Ha in Hd, Hd'. rewrite Ho, He in *.
    assert (doc = front) as -> by congruence.
    assert (doc' = back) as -> by exact (Hsecond d doc' Hd Hdoc').
    right. right. right. left.
    exists (PermissionError "PRT_BACK_000995.pdf"), d, d'.
    split; [done|]. split; [done|]. unfold print, mret, M_ret, ret.
    cbn [stdout set_stdout set_files]. by rewrite <- Ho1, <- Hf1, <- app_assoc.
  - apply archived_under in Hd, Hd'. rewrite Ha in Hd, Hd'. rewrite Ho, He in *.
    assert (doc = front) as -> by congruence.
    assert (doc' = back) as -> by exact (Hsecond d doc' Hd Hdoc').
    right. right. right. right. exists d, d'. split; [done|]. split; [done|].
    unfold print, mret, M_ret, ret. rewrite Ha.
    cbn [stdout set_stdout set_files]. by rewrite <- Ho1, <- Hf1, <- app_assoc.
Qed.

(** The merged output is there when the run ends, however the archiving
    went. *)
Lemma init_keeps_merged (rot : option (string * Z)) (w : World)
    (front back : list Page) :
  valid_rotation rot ->
  files w !! "PRT_FRONT_000975.pdf" = Some front ->
  files w !! "PRT_BACK_000995.pdf" = Some back ->
  Py.len front = Py.len back ->
  writable ("merged_" +:+ now_minute w +:+ ".pdf") w ->
  files (final (MergePDF.__init__ rot w)) !! ("merged_" +:+ now_minute w +:+ ".pdf")
  = Some (merged_doc rot w front back).
Proof.
  intros Hrot Hf Hb Hlen Hw.
  pose proof (merged_world_lookup rot w front back) as Hkept.
  assert (Hin : forall d doc (fs : gmap string (list Page)),
    under "archive" d ->
    <[d := doc]> fs !! ("merged_" +:+ now_minute w +:+ ".pdf")
    = fs !! ("merged_" +:+ now_minute w +:+ ".pdf")).
  { intros d doc fs Hd. apply lookup_insert_ne.
    intros ->. exact (merged_not_archived _ _ Hd eq_refl). }
  assert (Hout : forall name (fs : gmap string (list Page)),
    name = "PRT_FRONT_000975.pdf" \/ name = "PRT_BACK_000995.pdf" ->
    delete name fs !! ("merged_" +:+ now_minute w +:+ ".pdf")
    = fs !! ("merged_" +:+ now_minute w +:+ ".pdf")).
  { intros name fs Hname. apply lookup_delete_ne.
    destruct Hname as [-> | ->]; by apply not_eq_sym, app_head_neq_name. }
  destruct (init_archiving_cases rot w front back Hrot Hf Hb Hlen Hw)
    as [[e ->]|(w1 & Hf1 & _ &
         [(e & ->)
         |[(e & d & Hd & ->)
          |[(e & d & Hd & ->)
           |[(e & d & d' & Hd & Hd' & ->)|(d & d' & Hd & Hd' & ->)]]]])];
    cbn [final files set_stdout set_files]; rewrite ?Hf1; try done.
  - by rewrite (Hin d) by done.
  - rewrite (Hin d) by done. by rewrite Hout by (by left).
  - rewrite (Hin d'), (Hin d) by done. by rewrite Hout by (by left).
  - rewrite (Hin d') by done. rewrite Hout by (by right).
    rewrite (Hin d) by done. by rewrite Hout by (by left).
Qed.




Example locked_console :
  stdout (final (MergePDF.__init__ None w_locked))
  = [MsgEqual; MsgMerged "merged_20250103_1200.pdf";
     MsgMoveError (PermissionError "archive/2025-01-03_PRT_FRONT_000975.pdf");
     MsgFinished].
Proof. vm_compute. reflexivity. Qed.

Example locked_inputs_stay :
  unarchived (final (MergePDF.__init__ None w_locked))
    ["PRT_FRONT_000975.pdf"; "PRT_BACK_000995.pdf"]
  = ["PRT_FRONT_000975.pdf"; "PRT_BACK_000995.pdf"].
Proof. vm_compute. reflexivity. Qed.

(** A front scan that cannot be taken away is copied into the archive and
    stays where it was; the one error is reported, the back scan is not
    touched, and the run ends normally. *)
Example front_pinned_console :
  stdout (final (MergePDF.__init__ None w_front_pinned))
  = [MsgEqual; MsgMerged "merged_20250103_1200.pdf";
     MsgMoveError (PermissionError "PRT_FRONT_000975.pdf");
     MsgFinished].
Proof. vm_compute. reflexivity. Qed.

Example front_pinned_files :
  files (final (MergePDF.__init__ None w_front_pinned))
  = <["archive/2025-01-03_PRT_FRONT_000975.pdf" := [mkPage 1 0]]>
      (<["merged_20250103_1200.pdf" := [mkPage 1 0; mkPage 11 0]]>
         (files w_front_pinned)).
Proof. vm_compute. reflexivity. Qed.

Example front_pinned_in_both_places :
  files (final (MergePDF.__init__ None w_front_pinned)) !! "PRT_FRONT_000975.pdf"
  = Some [mkPage 1 0] /\
  files (final (MergePDF.__init__ None w_front_pinned))
    !! "archive/2025-01-03_PRT_FRONT_000975.pdf"
  = Some [mkPage 1 0] /\
  files (final (MergePDF.__init__ None w_front_pinned))
    !! "archive/2025-01-03_PRT_BACK_000995.pdf"
  = None.
Proof. vm_compute. by repeat split. Qed.

(** A back scan that cannot be taken away: the front scan is archived, the
    back scan is copied into the archive and stays where it was. *)
Example back_pinned_console :
  stdout (final (MergePDF.__init__ None w_back_pinned))
  = [MsgEqual; MsgMerged "merged_20250103_1200.pdf";
     MsgMoveError (PermissionError "PRT_BACK_000995.pdf");
     MsgFinished].
Proof. vm_compute. reflexivity. Qed.

Example back_pinned_files :
  files (final (MergePDF.__init__ None w_back_pinned))
  = <["archive/2025-01-03_PRT_BACK_000995.pdf" := [mkPage 11 0]]>
      (<["archive/2025-01-03_PRT_FRONT_000975.pdf" := [mkPage 1 0]]>
         (delete "PRT_FRONT_000975.pdf"
            (<["merged_20250103_1200.pdf" := [mkPage 1 0; mkPage 11 0]]>
               (files w_back_pinned)))).
Proof. vm_compute. reflexivity. Qed.

(** ** Archiving that succeeds *)

(** A destination that is no folder: [shutil.move] goes for the
    destination itself. *)
Lemma shutil_move_plain (src dst : string) (w : World) :
  dst ∉ dirs w ->
  shutil_move src dst w
  = try_except_OSError (os_rename src dst)
      (fun _ => copy2 src dst;; os_unlink src) w.
Proof.
  intros Hdir. unfold shutil_move, os_path_isdir.
  unfold mbind at 1 2, M_bind at 1 2, bind at 1 2.
  by rewrite bool_decide_eq_false_2 by done.
Qed.


(** The move of a file that cannot be taken away, to a name the archive
    accepts: the copy is made and the source stays. *)
Lemma shutil_move_pinned (src dst : string) (w : World) (doc : list Page) :
  files w !! src = Some doc -> src ∈ pinned w ->
  dst ∉ dirs w -> dst ∉ denied w ->
  shutil_move src dst w
  = Raise (PermissionError src) (set_files (<[dst := doc]> (files w)) w).
Proof.
  intros Hsrc Hpin Hdir Hden. rewrite shutil_move_plain by done.
  unfold try_except_OSError, os_rename. rewrite Hsrc.
  rewrite (bool_decide_eq_true_2 (src ∈ pinned w)) by done. cbn [is_OSError].
  unfold mbind, M_bind, bind, copy2.
  rewrite !(bool_decide_eq_false_2 (dst ∈ dirs w)) by done. cbv zeta.
  rewrite Hsrc, (bool_decide_eq_false_2 (dst ∈ denied w)) by done.
  unfold os_unlink. cbn [files set_files pinned].
  assert (Hstill : is_Some (<[dst:=doc]> (files w) !! src)).
  { destruct (decide (dst = src)) as [->|Hne];
      [rewrite lookup_insert_eq | rewrite lookup_insert_ne by done]; eauto. }
  destruct Hstill as [doc' ->].
  by rewrite bool_decide_eq_true_2 by done.
Qed.

Lemma join_not_folder (folder rest : string) : os_path_join folder rest <> folder.
Proof.
  unfold os_path_join. induction folder as [|c folder IH]; [done|].
  change (String c (folder +:+ "/" +:+ rest) <> String c folder). congruence.
Qed.






Example taken_console :
  stdout (final (MergePDF.__init__ None w_taken))
  = [MsgEqual; MsgMerged "merged_20250103_1200.pdf"; MsgMoved "archive";
     MsgFinished].
Proof. vm_compute. reflexivity. Qed.

(** ** Empty inputs *)

Lemma merged_doc_empty (rot : option (string * Z)) (w : World) :
  merged_doc rot w [] [] = [].
Proof.
  unfold merged_doc. destruct rot as [[target angle]|]; [|done].
  simpl. unfold rotated. by repeat case_bool_decide.
Qed.

(** C8: with two empty inputs (an output name that can be written to, and,
    if the rotation step is enabled, an angle the library accepts) the
    validator finds 0 = 0 and lets the run proceed, [merge_files] returns
    normally with no page added, and the output file is written with 0
    pages and is still there, with 0 pages, when the run ends. *)
Theorem empty_inputs_merge (rot : option (string * Z)) (w : World) :
  valid_rotation rot ->
  files w !! "PRT_FRONT_000975.pdf" = Some [] ->
  files w !! "PRT_BACK_000995.pdf" = Some [] ->
  writable ("merged_" +:+ now_minute w +:+ ".pdf") w ->
  exists self1 self2 w2,
    MergePDF.open_files (MergePDF.fresh (now_minute w)) w = Ok self1 w /\
    MergePDF.odd_pages self1 = 0 /\ MergePDF.even_pages self1 = 0 /\
    MergePDF.check_pages self1 w = Ok self2 w2 /\
    MergePDF.check self2 = true /\
    (exists self3 w3,
       MergePDF.merge_files self2 w2 = Ok self3 w3 /\
       MergePDF.merge self3 = [] /\
       Py.len (MergePDF.merge self3) = 0 /\
       files w3 !! ("merged_" +:+ now_minute w +:+ ".pdf") = Some []) /\
    files (final (MergePDF.__init__ rot w)) !! ("merged_" +:+ now_minute w +:+ ".pdf")
    = Some [].
Proof.
  intros Hrot Hf Hb Hw. do 3 eexists.
  split; [by apply (open_files_run _ _ [] [])|].
  split; [done|]. split; [done|].
  split; [apply check_pages_run|]. split; [done|]. split.
  - do 2 eexists. split.
    + apply (merge_files_run _ _ [] []); [by repeat split | done | exact Hw].
    + split; [done|]. split; [done|]. simpl. apply lookup_insert_eq.
  - rewrite (init_keeps_merged rot w [] []) by done.
    by rewrite merged_doc_empty.
Qed.

Lemma empty_inputs_merge_witness :
  files (final (MergePDF.__init__ None w_empty)) !! "merged_20250103_1200.pdf"
  = Some [].
Proof.
  destruct (empty_inputs_merge None w_empty)
    as (_ & _ & _ & _ & _ & _ & _ & _ & _ & Hkept);
    [exact I | reflexivity | reflexivity | split; vm_compute; discriminate |].
  exact Hkept.
Defined.

Example empty_run :
  exists self,
    MergePDF.__init__ None w_empty
    = Ok self
        (set_stdout [MsgEqual; MsgMerged "merged_20250103_1200.pdf";
                     MsgMoved "archive"; MsgFinished]
           (set_dirs {["archive"]}
              (set_files {[ "merged_20250103_1200.pdf" := [];
                            "archive/2025-01-03_PRT_FRONT_000975.pdf" := [];
                            "archive/2025-01-03_PRT_BACK_000995.pdf" := [] ]}
                 w_empty))).
Proof. eexists. vm_compute. reflexivity. Qed.

(** From the merge on, the constructor does not raise [IndexError] on
    documents of one length. *)
Lemma merge_and_archive_no_IndexError (self : MergePDF.t) (w w' : World)
    (front back : list Page) :
  opened self front back -> length front = length back ->
  (self ← MergePDF.merge_files self;
   self ← MergePDF.move_files self;
   print MsgFinished;;
   mret self) w <> Raise IndexError w'.
Proof.
  intros Hopen Hlen. unfold mbind at 1, M_bind at 1, bind at 1.
  destruct (MergePDF.merge_files self w) as [s4 w4|e w4] eqn:Hmerge.
  - unfold mbind at 1, M_bind at 1, bind at 1.
    destruct (move_files_ends s4 w4) as [(e & He & ->)|(w5 & ->)]; [|done].
    intros H. injection H as -> _. done.
  - intros H. injection H as -> ->.
    eapply merge_files_no_IndexError; [|exact Hmerge].
    destruct Hopen as (-> & -> & -> & ->). by apply merged_pages_interleave.
Qed.

(** X14: the constructor never raises [IndexError], whatever the working
    directory holds and whatever rotation is asked for: the merge runs only
    on documents of one length. *)
Lemma init_no_IndexError (rot : option (string * Z)) (w w' : World) :
  MergePDF.__init__ rot w <> Raise IndexError w'.
Proof.
  rewrite init_unfold. unfold MergePDF.open_files, mbind, M_bind, bind, PdfReader.
  destruct (files w !! _) as [front|]; [|by case_bool_decide].
  destruct (files w !! _) as [back|]; [|by case_bool_decide].
  unfold mret, M_ret, ret. rewrite check_pages_run.
  cbn [MergePDF.check MergePDF.set_check MergePDF.odd_pages MergePDF.even_pages
       MergePDF.set_readers].
  destruct (Py.len front =? Py.len back) eqn:Hlen; [|done].
  apply Z.eqb_eq in Hlen.
  set (s2 := MergePDF.set_check true _). set (w2 := set_stdout _ w).
  destruct (pre_rotated_opened rot s2 front back) as (f' & b' & Ho & Hf & Hb);
    [by repeat split|].
  assert (Hl : length f' = length b') by (unfold Py.len in Hlen; lia).
  destruct rot as [[target angle]|].
  - destruct (rotate_pages_cases s2 target angle w2) as [-> | ->]; [done|].
    by apply (merge_and_archive_no_IndexError _ _ _ f' b').
  - by apply (merge_and_archive_no_IndexError _ _ _ f' b').
Qed.

(** The scenario of three sheets, through the whole constructor. *)
Example three_sheets_run :
  files (final (MergePDF.__init__ None w_3_3)) !! "merged_20250103_1200.pdf"
  = Some [mkPage 1 0; mkPage 13 0; mkPage 2 0; mkPage 12 0;
          mkPage 3 0; mkPage 11 0].
Proof. vm_compute. reflexivity. Qed.

(** The same with the back pages turned upside down first, as the line
    commented out in the constructor would do. *)
Example three_sheets_rotated_run :
  files (final (MergePDF.__init__ (Some ("even", 180)) w_3_3))
    !! "merged_20250103_1200.pdf"
  = Some [mkPage 1 0; mkPage 13 180; mkPage 2 0; mkPage 12 180;
          mkPage 3 0; mkPage 11 180].
Proof. vm_compute. reflexivity. Qed.

(** An angle that is not a multiple of 90 stops the rotation, and with it
    the constructor, before anything is written. *)
Example rotate_pages_refuses_45 :
  MergePDF.rotate_pages self3 "even" 45 w_3_3 = Raise ValueError w_3_3 /\
  MergePDF.__init__ (Some ("even", 45)) w_3_3
  = Raise ValueError (set_stdout [MsgEqual] w_3_3).
Proof. split; reflexivity. Qed.

(** * Further properties of the code *)

(** ** The merge loses no page and adds none *)

Lemma interleave_Permutation (front back : list Page) :
  length front = length back -> interleave front back ≡ₚ front ++ back.
Proof.
  revert back. induction front as [|f front IH]; intros [|b back] Hlen;
    simpl in Hlen; try done.
  simpl. rewrite IH by lia.
  by rewrite (Permutation_middle front back b).
Qed.

(** X1: for two documents of one length, the pages [merge_files] writes
    are the pages of both inputs, each as often as it occurs there: no page
    is lost and none is added. *)
Theorem merge_keeps_every_page
    (self : MergePDF.t) (front back : list Page) (w : World) :
  opened self front back -> length front = length back ->
  writable (MergePDF.merged self) w ->
  exists O w',
    MergePDF.merge_files self w = Ok (MergePDF.set_merge O self) w' /\
    files w' !! MergePDF.merged self = Some O /\
    O ≡ₚ front ++ back.
Proof.
  intros Hopen Hlen Hw. do 2 eexists.
  split; [by apply merge_files_run|]. split; [simpl; apply lookup_insert_eq|].
  rewrite interleave_Permutation by (by rewrite length_reverse).
  by rewrite reverse_Permutation.
Qed.

Lemma merge_keeps_every_page_witness :
  exists O w',
    MergePDF.merge_files self3 w_3_3 = Ok (MergePDF.set_merge O self3) w' /\
    O ≡ₚ [mkPage 1 0; mkPage 2 0; mkPage 3 0;
          mkPage 11 0; mkPage 12 0; mkPage 13 0].
Proof.
  destruct (merge_keeps_every_page self3
              [mkPage 1 0; mkPage 2 0; mkPage 3 0]
              [mkPage 11 0; mkPage 12 0; mkPage 13 0] w_3_3)
    as (O & w' & Hrun & _ & Hperm);
    [repeat split | reflexivity | split; vm_compute; discriminate |].
  exists O, w'. split; [exact Hrun | exact Hperm].
Defined.

Lemma interleave_inj (f1 b1 f2 b2 : list Page) :
  length f1 = length b1 -> length f2 = length b2 ->
  interleave f1 b1 = interleave f2 b2 -> f1 = f2 /\ b1 = b2.
Proof.
  revert b1 f2 b2. induction f1 as [|x f1 IH]; intros [|y b1] [|x' f2] [|y' b2];
    simpl; intros H1 H2 H; try done.
  injection H as -> -> H.
  destruct (IH b1 f2 b2) as [-> ->]; [lia | lia | done | done].
Qed.

(** X2: the merge is one-to-one: two pairs of documents, each pair of one
    length, that give the same merged pages are the same pair.  The inputs
    can be read back from the output. *)
Theorem merge_is_injective (f1 b1 f2 b2 : list Page) :
  length f1 = length b1 -> length f2 = length b2 ->
  merged_pages f1 b1 (Py.len f1) (Py.len b1)
  = merged_pages f2 b2 (Py.len f2) (Py.len b2) ->
  f1 = f2 /\ b1 = b2.
Proof.
  intros H1 H2. rewrite !merged_pages_interleave by done. intros H.
  injection H as H.
  apply interleave_inj in H as [-> Hrev]; rewrite ?length_reverse; try done.
  split; [done|]. by apply (inj reverse).
Qed.

Lemma merge_is_injective_witness :
  [mkPage 1 0; mkPage 2 0] = [mkPage 1 0; mkPage 2 0] /\
  [mkPage 11 0; mkPage 12 0] = [mkPage 11 0; mkPage 12 0].
Proof.
  apply (merge_is_injective [mkPage 1 0; mkPage 2 0] [mkPage 11 0; mkPage 12 0]
           [mkPage 1 0; mkPage 2 0] [mkPage 11 0; mkPage 12 0]);
    reflexivity.
Defined.

(** ** [merge_files] on documents that were not checked *)

Lemma add_pages_out_of_range (front rev : list Page) (m k : nat) (acc : list Page) :
  (length rev < k + m)%nat -> (k + m <= length front)%nat ->
  (k <= length rev)%nat ->
  add_pages front rev (map Z.of_nat (seq k m)) acc = inl IndexError.
Proof.
  revert k acc. induction m as [|m IH]; intros k acc Hr Hf Hk; [lia|].
  simpl map. simpl add_pages. rewrite !getitem_nat.
  destruct (lookup_lt_is_Some_2 front k) as [p ->]; [lia|].
  destruct (decide (k < length rev)%nat) as [Hlt|Hge].
  - destruct (lookup_lt_is_Some_2 rev k Hlt) as [q ->]. apply IH; lia.
  - by rewrite lookup_ge_None_2 by lia.
Qed.

(** X3: called on a front document longer than the back document,
    [merge_files] raises [IndexError] once the back pages run out, before
    anything is written or printed. *)
Theorem merge_longer_front_raises
    (self : MergePDF.t) (front back : list Page) (w : World) :
  opened self front back -> (length back < length front)%nat ->
  MergePDF.merge_files self w = Raise IndexError w.
Proof.
  intros (Ho & He & Hop & Hep) Hlen.
  unfold MergePDF.merge_files, mbind, M_bind, bind.
  rewrite Ho, He, Hop, Hep. unfold merged_pages.
  rewrite reversed_even_reverse. unfold Py.len. rewrite range_of_nat.
  rewrite add_pages_out_of_range; [done| |lia|lia].
  rewrite length_reverse. lia.
Qed.

Lemma merge_longer_front_raises_witness :
  MergePDF.merge_files self_3_2 w_3_3 = Raise IndexError w_3_3.
Proof.
  apply (merge_longer_front_raises self_3_2
           [mkPage 1 0; mkPage 2 0; mkPage 3 0] [mkPage 11 0; mkPage 12 0]);
    [repeat split | simpl; lia].
Defined.

(** X4: called on a front document of n pages and a longer back document,
    [merge_files] reports no error: it writes 2n pages, the front pages
    alternating with the last n back pages taken from the end, and leaves
    out the first back pages. *)
Theorem merge_shorter_front_truncates
    (self : MergePDF.t) (front back : list Page) (w : World) :
  opened self front back -> (length front < length back)%nat ->
  writable (MergePDF.merged self) w ->
  exists O w',
    MergePDF.merge_files self w = Ok (MergePDF.set_merge O self) w' /\
    files w' !! MergePDF.merged self = Some O /\
    Py.len O = 2 * Py.len front /\
    (forall i, 0 <= i < Py.len front ->
       Py.getitem O (2 * i) = Py.getitem front i /\
       Py.getitem O (2 * i + 1) = Py.getitem back (Py.len back - 1 - i)) /\
    O ≡ₚ front ++ drop (length back - length front) back.
Proof.
  intros (Ho & He & Hop & Hep) Hlen [Hdir Hden].
  set (n := length front).
  set (O := interleave front (take n (reverse back))).
  assert (HO : merged_pages front back (Py.len front) (Py.len back) = inr O).
  { unfold merged_pages. rewrite reversed_even_reverse.
    unfold Py.len at 1. rewrite range_of_nat.
    rewrite add_pages_interleave by (rewrite ?length_reverse; lia).
    rewrite !drop_0. simpl. by rewrite take_ge by lia. }
  assert (Hn : length (take n (reverse back)) = n).
  { rewrite length_take, length_reverse. lia. }
  exists O. eexists. split.
  { unfold MergePDF.merge_files, mbind, M_bind, bind.
    rewrite Ho, He, Hop, Hep, HO. simpl. unfold write_pdf.
    rewrite !bool_decide_eq_false_2 by done. reflexivity. }
  split; [simpl; apply lookup_insert_eq|]. split; [|split].
  - unfold Py.len, O. rewrite interleave_length by done. lia.
  - intros i Hi. unfold Py.len in Hi.
    assert (Hi' : exists k : nat, i = Z.of_nat k /\ (k < n)%nat)
      by (exists (Z.to_nat i); unfold n; lia).
    destruct Hi' as (k & -> & Hk).
    destruct (interleave_lookup front (take n (reverse back)) k)
      as [H0 H1]; [done|].
    rewrite lookup_take_lt in H1 by lia.
    rewrite reverse_lookup in H1 by lia.
    replace (2 * Z.of_nat k) with (Z.of_nat (2 * k)) by lia.
    replace (Z.of_nat (2 * k) + 1) with (Z.of_nat (2 * k + 1)) by lia.
    replace (Py.len back - 1 - Z.of_nat k)
      with (Z.of_nat (length back - S k)) by (unfold Py.len; lia).
    rewrite !getitem_nat. by split.
  - unfold O. rewrite interleave_Permutation by done.
    rewrite take_reverse. by rewrite reverse_Permutation.
Qed.

Lemma merge_shorter_front_truncates_witness :
  exists O w',
    MergePDF.merge_files self_2_3 w_3_3 = Ok (MergePDF.set_merge O self_2_3) w' /\
    Py.len O = 4 /\
    O ≡ₚ [mkPage 1 0; mkPage 2 0; mkPage 12 0; mkPage 13 0].
Proof.
  destruct (merge_shorter_front_truncates self_2_3
              [mkPage 1 0; mkPage 2 0]
              [mkPage 11 0; mkPage 12 0; mkPage 13 0] w_3_3)
    as (O & w' & Hrun & _ & Hlen & _ & Hperm);
    [repeat split | simpl; lia | split; vm_compute; discriminate |].
  exists O, w'. split; [exact Hrun|]. split; [exact Hlen | exact Hperm].
Defined.

Example merge_2_3_pages :
  merged_pages (MergePDF.odd_reader self_2_3) (MergePDF.even_reader self_2_3) 2 3
  = inr [mkPage 1 0; mkPage 13 0; mkPage 2 0; mkPage 12 0].
Proof. reflexivity. Qed.

(** ** Rotation undone; rotation, then merge *)

Lemma turned_0 (p : Page) : turned 0 p = p.
Proof. destruct p as [i r]. unfold turned. simpl. f_equal. lia. Qed.

Lemma map_turned_back (a : Z) (ps : list Page) :
  map (turned (- a)) (map (turned a) ps) = ps.
Proof.
  rewrite map_map. rewrite <- (map_id ps) at 2. apply map_ext. intros p.
  rewrite turned_turned. replace (a + - a) with 0 by lia. apply turned_0.
Qed.

(** X5: a rotation is undone by the opposite rotation: after
    [rotate_pages] by a multiple of 90 and then by its opposite, on the same
    selector, the object is what it was before, pages and rotation entries
    included, and only the console has changed. *)
Theorem rotation_undone_by_opposite
    (self : MergePDF.t) (target : string) (a : Z) (w : World) :
  a mod 90 = 0 ->
  exists s1 w1 w2,
    MergePDF.rotate_pages self target a w = Ok s1 w1 /\
    MergePDF.rotate_pages s1 target (- a) w1 = Ok self w2 /\
    same_disk w2 w.
Proof.
  intros Ha.
  assert (Hopp : (- a) mod 90 = 0) by (by apply Z.mod_opp_l_z).
  do 3 eexists. split; [by apply rotate_pages_run|]. split.
  { rewrite rotate_pages_run by done.
    destruct (decide (target = "odd")) as [->|Hodd];
      [|destruct (decide (target = "even")) as [->|Heven]].
    - rewrite !rotated_odd. destruct self. simpl. rewrite map_turned_back.
      reflexivity.
    - rewrite !rotated_even. destruct self. simpl. rewrite map_turned_back.
      reflexivity.
    - rewrite !rotated_invalid by done. reflexivity. }
  by repeat split.
Qed.

Lemma rotation_undone_by_opposite_witness :
  exists s1 w1 w2,
    MergePDF.rotate_pages self3 "even" 90 w_3_3 = Ok s1 w1 /\
    MergePDF.rotate_pages s1 "even" (-90) w1 = Ok self3 w2.
Proof.
  destruct (rotation_undone_by_opposite self3 "even" 90 w_3_3)
    as (s1 & w1 & w2 & H1 & H2 & _); [reflexivity|].
  exists s1, w1, w2. split; [exact H1 | exact H2].
Defined.

(** X6: a rotation made before the merge shows in the merged pages, and only
    where it should: after rotating the front document the pages at the even
    positions 0, 2, 4, ... of the output are those of the unrotated merge
    turned by the angle and the others are unchanged; after rotating the
    back document it is the pages at the odd positions. *)
Theorem rotation_shows_in_merge
    (self : MergePDF.t) (front back : list Page) (a : Z) (w : World) :
  opened self front back -> length front = length back -> a mod 90 = 0 ->
  exists O,
    merged_pages (MergePDF.odd_reader self) (MergePDF.even_reader self)
      (MergePDF.odd_pages self) (MergePDF.even_pages self) = inr O /\
    (exists s1 w1 O1,
       MergePDF.rotate_pages self "odd" a w = Ok s1 w1 /\
       merged_pages (MergePDF.odd_reader s1) (MergePDF.even_reader s1)
         (MergePDF.odd_pages s1) (MergePDF.even_pages s1) = inr O1 /\
       forall i : nat,
         O1 !! (2 * i)%nat = turned a <$> O !! (2 * i)%nat /\
         O1 !! (2 * i + 1)%nat = O !! (2 * i + 1)%nat) /\
    (exists s2 w2 O2,
       MergePDF.rotate_pages self "even" a w = Ok s2 w2 /\
       merged_pages (MergePDF.odd_reader s2) (MergePDF.even_reader s2)
         (MergePDF.odd_pages s2) (MergePDF.even_pages s2) = inr O2 /\
       forall i : nat,
         O2 !! (2 * i)%nat = O !! (2 * i)%nat /\
         O2 !! (2 * i + 1)%nat = turned a <$> O !! (2 * i + 1)%nat).
Proof.
  intros (Ho & He & Hop & Hep) Hlen Ha.
  exists (interleave front (reverse back)). rewrite Ho, He, Hop, Hep.
  split; [by apply merged_pages_interleave|]. split.
  - do 2 eexists. exists (interleave (map (turned a) front) (reverse back)).
    split; [by apply rotate_pages_run|]. rewrite rotated_odd.
    cbn [MergePDF.odd_reader MergePDF.even_reader MergePDF.odd_pages
         MergePDF.even_pages MergePDF.set_readers].
    rewrite Ho, He, Hop, Hep. split.
    + rewrite <- (merged_pages_interleave (map (turned a) front) back)
        by (by rewrite length_map).
      unfold Py.len. by rewrite length_map.
    + intros i.
      destruct (interleave_lookup (map (turned a) front) (reverse back) i)
        as [-> ->]; [by rewrite length_map, length_reverse|].
      destruct (interleave_lookup front (reverse back) i)
        as [-> ->]; [by rewrite length_reverse|].
      split; [apply list_lookup_fmap | done].
  - do 2 eexists. exists (interleave front (reverse (map (turned a) back))).
    split; [by apply rotate_pages_run|]. rewrite rotated_even.
    cbn [MergePDF.odd_reader MergePDF.even_reader MergePDF.odd_pages
         MergePDF.even_pages MergePDF.set_readers].
    rewrite Ho, He, Hop, Hep. split.
    + rewrite <- (merged_pages_interleave front (map (turned a) back))
        by (by rewrite length_map).
      unfold Py.len. by rewrite length_map.
    + intros i.
      destruct (interleave_lookup front (reverse (map (turned a) back)) i)
        as [-> ->]; [by rewrite length_reverse, length_map|].
      destruct (interleave_lookup front (reverse back) i)
        as [-> ->]; [by rewrite length_reverse|].
      split; [done|].
      change (map (turned a) back) with (turned a <$> back).
      by rewrite <- fmap_reverse, list_lookup_fmap.
Qed.

Lemma rotation_shows_in_merge_witness :
  exists s2 w2 O2,
    MergePDF.rotate_pages self3 "even" 180 w_3_3 = Ok s2 w2 /\
    merged_pages (MergePDF.odd_reader s2) (MergePDF.even_reader s2)
      (MergePDF.odd_pages s2) (MergePDF.even_pages s2) = inr O2 /\
    O2 !! 1%nat = turned 180 <$> Some (mkPage 13 0).
Proof.
  destruct (rotation_shows_in_merge self3
              [mkPage 1 0; mkPage 2 0; mkPage 3 0]
              [mkPage 11 0; mkPage 12 0; mkPage 13 0] 180 w_3_3)
    as (O & HO & _ & (s2 & w2 & O2 & Hrun & HO2 & Hpos));
    [repeat split | reflexivity | reflexivity |].
  exists s2, w2, O2. split; [exact Hrun|]. split; [exact HO2|].
  injection HO as <-. exact (proj2 (Hpos 0%nat)).
Defined.

(** ** A missing input *)

(** X7: when one of the two input files is not there, the constructor
    raises the error of the failed read at once: nothing is printed,
    written, created or moved. *)
Theorem missing_input_raises (rot : option (string * Z)) (w : World) :
  files w !! "PRT_FRONT_000975.pdf" = None \/
  files w !! "PRT_BACK_000995.pdf" = None ->
  exists e, is_OSError e = true /\ MergePDF.__init__ rot w = Raise e w.
Proof.
  intros Hmissing. rewrite init_unfold.
  unfold MergePDF.open_files, mbind, M_bind, bind, PdfReader.
  cbn [MergePDF.odd MergePDF.even MergePDF.fresh].
  destruct (files w !! "PRT_FRONT_000975.pdf") as [front|].
  - destruct Hmissing as [Hn | ->]; [done|].
    case_bool_decide; eexists; (split; [|reflexivity]); reflexivity.
  - case_bool_decide; eexists; (split; [|reflexivity]); reflexivity.
Qed.

Lemma missing_input_raises_witness :
  exists e, is_OSError e = true /\
            MergePDF.__init__ None (set_files ∅ w_3_3) = Raise e (set_files ∅ w_3_3).
Proof.
  apply (missing_input_raises None (set_files ∅ w_3_3)). left. reflexivity.
Defined.

Example missing_front_is_FileNotFoundError :
  MergePDF.__init__ None (set_files ∅ w_3_3)
  = Raise (FileNotFoundError "PRT_FRONT_000975.pdf") (set_files ∅ w_3_3).
Proof. reflexivity. Qed.

(** ** What the constructor can do to the files *)

(** The files after [move_files]: as before; or with a copy of the front
    scan added; or with the front scan moved; or with the front scan moved
    and a copy of the back scan added; or with both scans moved. *)
Lemma move_files_files (self : MergePDF.t) (w : World) :
  files (final (MergePDF.move_files self w)) = files w \/
  (exists doc d,
     files w !! MergePDF.odd self = Some doc /\
     (d = archived_as self w (MergePDF.odd self) \/
      d = os_path_join (archived_as self w (MergePDF.odd self))
            (os_path_basename (MergePDF.odd self))) /\
     files (final (MergePDF.move_files self w)) = <[d := doc]> (files w)) \/
  (exists doc d,
     files w !! MergePDF.odd self = Some doc /\
     (d = archived_as self w (MergePDF.odd self) \/
      d = os_path_join (archived_as self w (MergePDF.odd self))
            (os_path_basename (MergePDF.odd self))) /\
     files (final (MergePDF.move_files self w))
     = <[d := doc]> (delete (MergePDF.odd self) (files w))) \/
  (exists doc d doc' d',
     files w !! MergePDF.odd self = Some doc /\
     (d = archived_as self w (MergePDF.odd self) \/
      d = os_path_join (archived_as self w (MergePDF.odd self))
            (os_path_basename (MergePDF.odd self))) /\
     <[d := doc]> (delete (MergePDF.odd self) (files w)) !! MergePDF.even self
     = Some doc' /\
     (d' = archived_as self w (MergePDF.even self) \/
      d' = os_path_join (archived_as self w (MergePDF.even self))
             (os_path_basename (MergePDF.even self))) /\
     files (final (MergePDF.move_files self w))
     = <[d' := doc']> (<[d := doc]> (delete (MergePDF.odd self) (files w)))) \/
  (exists doc d doc' d',
     files w !! MergePDF.odd self = Some doc /\
     (d = archived_as self w (MergePDF.odd self) \/
      d = os_path_join (archived_as self w (MergePDF.odd self))
            (os_path_basename (MergePDF.odd self))) /\
     <[d := doc]> (delete (MergePDF.odd self) (files w)) !! MergePDF.even self
     = Some doc' /\
     (d' = archived_as self w (MergePDF.even self) \/
      d' = os_path_join (archived_as self w (MergePDF.even self))
             (os_path_basename (MergePDF.even self))) /\
     files (final (MergePDF.move_files self w))
     = <[d' := doc']>
         (delete (MergePDF.even self)
            (<[d := doc]> (delete (MergePDF.odd self) (files w))))).
Proof.
  destruct (move_files_cases self w)
    as [(e & _ & ->)|(w1 & Hf1 & _ & _ &
         [(e & ->)
         |[(doc & d & Hdoc & _ & Hd & ->)
          |[(e & doc & d & Hdoc & _ & Hd & ->)
           |[(doc & d & doc' & d' & Hdoc & _ & _ & Hdoc' & Hd & Hd' & ->)
            |(doc & d & doc' & d' & Hdoc & _ & _ & Hdoc' & Hd & Hd' & ->)]]]])];
    cbn [final files set_stdout set_files].
  - by left.
  - by left.
  - right. left. by exists doc, d.
  - right. right. left. by exists doc, d.
  - right. right. right. left. by exists doc, d, doc', d'.
  - right. right. right. right. by exists doc, d, doc', d'.
Qed.

(** The two names the archive gives to the two inputs are different,
    whichever way [shutil.move] builds them. *)
Lemma archive_names_apart (self : MergePDF.t) (w : World) (d d' : string) :
  (d = archived_as self w "PRT_FRONT_000975.pdf" \/
   d = os_path_join (archived_as self w "PRT_FRONT_000975.pdf")
         (os_path_basename "PRT_FRONT_000975.pdf")) ->
  (d' = archived_as self w "PRT_BACK_000995.pdf" \/
   d' = os_path_join (archived_as self w "PRT_BACK_000995.pdf")
          (os_path_basename "PRT_BACK_000995.pdf")) ->
  d <> d'.
Proof.
  unfold archived_as, os_path_join.
  intros [-> | ->] [-> | ->] H; rewrite ?string_app_assoc in H;
    repeat apply (inj (String.append _)) in H; vm_compute in H; discriminate.
Qed.

Lemma merge_files_outcomes (self : MergePDF.t) (w : World) :
  (exists e, MergePDF.merge_files self w = Raise e w) \/
  exists O,
    MergePDF.merge_files self w
    = Ok (MergePDF.set_merge O self)
         (set_stdout (stdout w ++ [MsgMerged (MergePDF.merged self)])
            (set_files (<[MergePDF.merged self := O]> (files w)) w)).
Proof.
  unfold MergePDF.merge_files, mbind, M_bind, bind.
  destruct (merged_pages _ _ _ _) as [e|O]; [left; by exists e|].
  simpl. unfold write_pdf.
  repeat case_bool_decide; [left; by eexists | left; by eexists |].
  right. by exists O.
Qed.

Lemma files_final_then_finished (m : M MergePDF.t) (w : World) :
  files (final ((self ← m; print MsgFinished;; mret self) w))
  = files (final (m w)).
Proof. rewrite final_then_finished. by destruct (m w). Qed.

(** The files once the merge and the archiving are over, for an object that
    carries the names the constructor gives. *)
Lemma merge_and_archive_files (self : MergePDF.t) (w : World) (stamp : string)
    (front back : list Page) :
  MergePDF.odd self = "PRT_FRONT_000975.pdf" ->
  MergePDF.even self = "PRT_BACK_000995.pdf" ->
  MergePDF.archive_folder self = "archive" ->
  MergePDF.merged self = "merged_" +:+ stamp +:+ ".pdf" ->
  files w !! "PRT_FRONT_000975.pdf" = Some front ->
  files w !! "PRT_BACK_000995.pdf" = Some back ->
  files (final ((self ← MergePDF.merge_files self;
                 self ← MergePDF.move_files self;
                 print MsgFinished;;
                 mret self) w)) = files w \/
  exists O,
    archiving_shapes (<["merged_" +:+ stamp +:+ ".pdf" := O]> (files w))
      (files (final ((self ← MergePDF.merge_files self;
                      self ← MergePDF.move_files self;
                      print MsgFinished;;
                      mret self) w)))
      front back.
Proof.
  intros Ho He Ha Hm Hf Hb.
  assert (Hrun :
    (self ← MergePDF.merge_files self;
     self ← MergePDF.move_files self;
     print MsgFinished;;
     mret self) w
    = match MergePDF.merge_files self w with
      | Ok s4 w4 =>
          (self ← MergePDF.move_files s4; print MsgFinished;; mret self) w4
      | Raise e w' => Raise e w'
      end) by reflexivity.
  rewrite Hrun. clear Hrun.
  destruct (merge_files_outcomes self w) as [[e ->]|[O ->]]; [by left|].
  right. exists O. rewrite files_final_then_finished, Hm.
  set (s4 := MergePDF.set_merge O self).
  set (w4 := set_stdout _ _).
  assert (Hfm : files w4 = <["merged_" +:+ stamp +:+ ".pdf" := O]> (files w))
    by done.
  assert (Hf4 : files w4 !! "PRT_FRONT_000975.pdf" = Some front).
  { rewrite Hfm, lookup_insert_ne by (by apply app_head_neq_name). done. }
  assert (Hb4 : files w4 !! "PRT_BACK_000995.pdf" = Some back).
  { rewrite Hfm, lookup_insert_ne by (by apply app_head_neq_name). done. }
  assert (Ho4 : MergePDF.odd s4 = "PRT_FRONT_000975.pdf") by done.
  assert (He4 : MergePDF.even s4 = "PRT_BACK_000995.pdf") by done.
  assert (Ha4 : MergePDF.archive_folder s4 = "archive") by done.
  clearbody s4 w4.
  assert (Hsecond : forall d doc',
    under "archive" d ->
    <[d := front]> (delete "PRT_FRONT_000975.pdf" (files w4))
      !! "PRT_BACK_000995.pdf" = Some doc' ->
    doc' = back).
  { intros d doc' Hd.
    rewrite lookup_insert_ne
      by (apply not_eq_sym, input_not_archived; [by right | done]).
    rewrite lookup_delete_ne by done. congruence. }
  unfold archiving_shapes.
  destruct (move_files_files s4 w4)
    as [->|[(doc & d & Hdoc & Hd & ->)
           |[(doc & d & Hdoc & Hd & ->)
            |[(doc & d & doc' & d' & Hdoc & Hd & Hdoc' & Hd' & ->)
             |(doc & d & doc' & d' & Hdoc & Hd & Hdoc' & Hd' & ->)]]]];
    rewrite ?Ho4, ?He4 in *; rewrite <- Hfm.
  - by left.
  - right. left. exists d.
    assert (doc = front) as -> by congruence.
    split; [|done]. apply archived_under in Hd. by rewrite Ha4 in Hd.
  - right. right. left. exists d.
    assert (doc = front) as -> by congruence.
    split; [|done]. apply archived_under in Hd. by rewrite Ha4 in Hd.
  - right. right. right. left. exists d, d'.
    assert (doc = front) as -> by congruence.
    pose proof (archive_names_apart s4 w4 d d' Hd Hd') as Hne.
    apply archived_under in Hd, Hd'. rewrite Ha4 in Hd, Hd'.
    by assert (doc' = back) as -> by exact (Hsecond d doc' Hd Hdoc').
  - right. right. right. right. exists d, d'.
    assert (doc = front) as -> by congruence.
    pose proof (archive_names_apart s4 w4 d d' Hd Hd') as Hne.
    apply archived_under in Hd, Hd'. rewrite Ha4 in Hd, Hd'.
    by assert (doc' = back) as -> by exact (Hsecond d doc' Hd Hdoc').
Qed.

Lemma init_files_cases (rot : option (string * Z)) (w : World) :
  files (final (MergePDF.__init__ rot w)) = files w \/
  exists front back O,
    files w !! "PRT_FRONT_000975.pdf" = Some front /\
    files w !! "PRT_BACK_000995.pdf" = Some back /\
    Py.len front = Py.len back /\
    archiving_shapes (<["merged_" +:+ now_minute w +:+ ".pdf" := O]> (files w))
      (files (final (MergePDF.__init__ rot w))) front back.
Proof.
  remember (final (MergePDF.__init__ rot w)) as wf eqn:Hwf.
  rewrite init_unfold in Hwf.
  unfold MergePDF.open_files, mbind at 1 2, M_bind at 1 2, bind at 1 2,
    PdfReader in Hwf.
  cbn [MergePDF.odd MergePDF.even MergePDF.fresh] in Hwf.
  destruct (files w !! "PRT_FRONT_000975.pdf") as [front|] eqn:Hf;
    [|left; subst wf; by case_bool_decide].
  destruct (files w !! "PRT_BACK_000995.pdf") as [back|] eqn:Hb;
    [|left; subst wf; by case_bool_decide].
  unfold mret at 1, M_ret at 1, ret at 1 in Hwf. rewrite check_pages_run in Hwf.
  cbn [MergePDF.check MergePDF.set_check MergePDF.odd_pages MergePDF.even_pages
       MergePDF.set_readers] in Hwf.
  destruct (Py.len front =? Py.len back) eqn:Hlen; [|left; by subst wf].
  apply Z.eqb_eq in Hlen.
  set (s2 := MergePDF.set_check true _) in Hwf.
  set (w2 := set_stdout _ w) in Hwf.
  assert (Hcont : forall s3 w3,
    MergePDF.odd s3 = "PRT_FRONT_000975.pdf" ->
    MergePDF.even s3 = "PRT_BACK_000995.pdf" ->
    MergePDF.archive_folder s3 = "archive" ->
    MergePDF.merged s3 = "merged_" +:+ now_minute w +:+ ".pdf" ->
    files w3 = files w ->
    wf = final ((self ← MergePDF.merge_files s3;
                 self ← MergePDF.move_files self;
                 print MsgFinished;;
                 mret self) w3) ->
    files wf = files w \/
    exists front0 back0 O,
      Some front = Some front0 /\ Some back = Some back0 /\
      Py.len front0 = Py.len back0 /\
      archiving_shapes (<["merged_" +:+ now_minute w +:+ ".pdf" := O]> (files w))
        (files wf) front0 back0).
  { intros s3 w3 Ho He Ha Hm Hw3 ->.
    destruct (merge_and_archive_files s3 w3 (now_minute w) front back)
      as [Hsame|[O Hcases]]; try done; try (by rewrite Hw3).
    - left. by rewrite <- Hw3.
    - right. exists front, back, O. rewrite <- Hw3. by repeat split. }
  destruct rot as [[target angle]|].
  - destruct (rotate_pages_cases s2 target angle w2) as [Hr | Hr];
      rewrite Hr in Hwf; [left; by subst wf|].
    destruct (pre_rotated_names (Some (target, angle)) s2) as (Ho & He & Hm & Ha).
    apply (Hcont (rotated target angle s2)
             (set_stdout (stdout w2 ++ [rotate_msg target angle]) w2));
      [exact Ho | exact He | exact Ha | exact Hm | reflexivity | exact Hwf].
  - apply (Hcont s2 w2); [reflexivity.. | exact Hwf].
Qed.

(** X8: whatever the working directory holds, the constructor leaves every
    file alone that is neither one of the two inputs, nor the merged output,
    nor a path inside the archive folder. *)
Theorem init_touches_only_its_files
    (rot : option (string * Z)) (w : World) (path : string) :
  path <> "PRT_FRONT_000975.pdf" -> path <> "PRT_BACK_000995.pdf" ->
  path <> "merged_" +:+ now_minute w +:+ ".pdf" ->
  ~ under "archive" path ->
  files (final (MergePDF.__init__ rot w)) !! path = files w !! path.
Proof.
  intros Hodd Heven Hmerged Harchive.
  destruct (init_files_cases rot w)
    as [->|(front & back & O & _ & _ & _ &
            [->|[(d & Hd & ->)
                |[(d & Hd & ->)
                 |[(d & d' & Hd & Hd' & _ & ->)
                  |(d & d' & Hd & Hd' & _ & ->)]]]])]; [done|..].
  - by rewrite lookup_insert_ne.
  - rewrite lookup_insert_ne by (by intros ->). by rewrite lookup_insert_ne.
  - rewrite lookup_insert_ne by (by intros ->).
    rewrite lookup_delete_ne by done. by rewrite lookup_insert_ne.
  - rewrite !lookup_insert_ne by (by intros ->).
    rewrite lookup_delete_ne by done. by rewrite lookup_insert_ne.
  - rewrite lookup_insert_ne by (by intros ->).
    rewrite lookup_delete_ne by done.
    rewrite lookup_insert_ne by (by intros ->).
    rewrite lookup_delete_ne by done. by rewrite lookup_insert_ne.
Qed.

Lemma init_touches_only_its_files_witness :
  files (final (MergePDF.__init__ None (set_files (<["notes.txt" := []]> (files w_3_3)) w_3_3)))
    !! "notes.txt"
  = Some [].
Proof.
  rewrite (init_touches_only_its_files None
             (set_files (<["notes.txt" := []]> (files w_3_3)) w_3_3) "notes.txt");
    [reflexivity | discriminate | discriminate | discriminate |].
  intros [rest Hrest]. discriminate Hrest.
Defined.

(** X9: the constructor loses no input: whatever happens, the document of
    each input file is afterwards still at its place or in a file of the
    archive folder. *)
Theorem init_loses_no_input
    (rot : option (string * Z)) (w : World) (name : string) (doc : list Page) :
  name = "PRT_FRONT_000975.pdf" \/ name = "PRT_BACK_000995.pdf" ->
  files w !! name = Some doc ->
  files (final (MergePDF.__init__ rot w)) !! name = Some doc \/
  exists d, under "archive" d /\
            files (final (MergePDF.__init__ rot w)) !! d = Some doc.
Proof.
  intros Hname Hdoc.
  assert (Hm : "merged_" +:+ now_minute w +:+ ".pdf" <> name)
    by (destruct Hname as [-> | ->]; by apply app_head_neq_name).
  destruct (init_files_cases rot w)
    as [->|(front & back & O & Hf & Hb & _ &
            [->|[(d & Hd & ->)
                |[(d & Hd & ->)
                 |[(d & d' & Hd & Hd' & Hne & ->)
                  |(d & d' & Hd & Hd' & Hne & ->)]]]])].
  - by left.
  - left. by rewrite lookup_insert_ne.
  - left. rewrite lookup_insert_ne
      by (apply not_eq_sym, input_not_archived; done).
    by rewrite lookup_insert_ne.
  - destruct Hname as [-> | ->].
    + right. exists d. split; [done|]. rewrite lookup_insert_eq. congruence.
    + left. rewrite lookup_insert_ne
        by (apply not_eq_sym, input_not_archived; [by right | done]).
      rewrite lookup_delete_ne by done. by rewrite lookup_insert_ne.
  - right. destruct Hname as [-> | ->].
    + exists d. split; [done|]. rewrite lookup_insert_ne by done.
      rewrite lookup_insert_eq. congruence.
    + exists d'. split; [done|]. rewrite lookup_insert_eq. congruence.
  - right. destruct Hname as [-> | ->].
    + exists d. split; [done|]. rewrite lookup_insert_ne by done.
      rewrite lookup_delete_ne
        by (apply input_not_archived; [by right | done]).
      rewrite lookup_insert_eq. congruence.
    + exists d'. split; [done|]. rewrite lookup_insert_eq. congruence.
Qed.

Lemma init_loses_no_input_witness :
  files (final (MergePDF.__init__ None w_locked)) !! "PRT_BACK_000995.pdf"
  = Some [mkPage 11 0] \/
  exists d, under "archive" d /\
            files (final (MergePDF.__init__ None w_locked)) !! d
            = Some [mkPage 11 0].
Proof.
  apply (init_loses_no_input None w_locked "PRT_BACK_000995.pdf" [mkPage 11 0]);
    [right; reflexivity | reflexivity].
Defined.

(** ** Archiving: the folder, the first move, a second run *)

Lemma archive_folder_step (folder : string) (w : World) :
  exists_path folder w = true \/ folder ∉ denied w ->
  exists w1,
    (if exists_path folder w then Ok tt w else os_makedirs folder w) = Ok tt w1 /\
    files w1 = files w /\ stdout w1 = stdout w /\ denied w1 = denied w /\
    (dirs w1 = dirs w \/ dirs w1 = {[folder]} ∪ dirs w).
Proof.
  intros Hfolder. destruct (exists_path folder w) eqn:Hex.
  - exists w. repeat split; auto.
  - destruct Hfolder as [|Hfolder]; [done|].
    exists (set_dirs ({[folder]} ∪ dirs w) w).
    unfold os_makedirs. rewrite Hex, bool_decide_eq_false_2 by done.
    repeat split; auto.
Qed.

Lemma shutil_move_denied (src dst : string) (w : World) (doc : list Page) :
  files w !! src = Some doc -> dst ∉ dirs w -> dst ∈ denied w ->
  shutil_move src dst w = Raise (PermissionError dst) w.
Proof.
  intros Hsrc Hdir Hden. rewrite shutil_move_plain by done.
  assert (Hcopy : (copy2 src dst;; os_unlink src) w
                  = Raise (PermissionError dst) w).
  { unfold mbind, M_bind, bind, copy2.
    rewrite !(bool_decide_eq_false_2 (dst ∈ dirs w)) by done. cbv zeta.
    rewrite Hsrc. by rewrite bool_decide_eq_true_2 by done. }
  unfold try_except_OSError, os_rename. rewrite Hsrc.
  rewrite (bool_decide_eq_false_2 (dst ∈ dirs w)) by done.
  rewrite (bool_decide_eq_true_2 (dst ∈ denied w)) by done.
  by destruct (bool_decide (src ∈ pinned w)); cbn [is_OSError].
Qed.

Lemma merged_world_exists_eq (rot : option (string * Z)) (w : World)
    (front back : list Page) :
  exists_path "archive" (merged_world rot w front back) = exists_path "archive" w.
Proof.
  unfold exists_path, merged_world. cbn [files dirs set_stdout set_files].
  by rewrite lookup_insert_ne by (by apply app_head_neq_name).
Qed.

(** X10: when the archive folder cannot be made, the error of
    [os.makedirs] is not caught: the constructor raises it after the merged
    output is written, both inputs stay where they are and the closing line
    is not printed. *)
Theorem folder_failure_escapes
    (rot : option (string * Z)) (w : World) (front back : list Page) :
  valid_rotation rot ->
  files w !! "PRT_FRONT_000975.pdf" = Some front ->
  files w !! "PRT_BACK_000995.pdf" = Some back ->
  Py.len front = Py.len back ->
  writable ("merged_" +:+ now_minute w +:+ ".pdf") w ->
  exists_path "archive" w = false -> "archive" ∈ denied w ->
  MergePDF.__init__ rot w
  = Raise (PermissionError "archive") (merged_world rot w front back) /\
  files (merged_world rot w front back) !! ("merged_" +:+ now_minute w +:+ ".pdf")
  = Some (merged_doc rot w front back) /\
  files (merged_world rot w front back) !! "PRT_FRONT_000975.pdf" = Some front /\
  files (merged_world rot w front back) !! "PRT_BACK_000995.pdf" = Some back /\
  stdout (merged_world rot w front back)
  = stdout w ++ [MsgEqual] ++ pre_rotation_msgs rot
    ++ [MsgMerged ("merged_" +:+ now_minute w +:+ ".pdf")].
Proof.
  intros Hrot Hf Hb Hlen Hw Hex Hden.
  split; [|split; [apply merged_world_lookup|split; [|split]]].
  - rewrite (init_after_merge rot w front back) by done.
    destruct (merged_self_names rot w front back) as (_ & _ & _ & Ha).
    unfold mbind at 1, M_bind at 1, bind at 1.
    rewrite move_files_unfold, Ha, merged_world_exists_eq, Hex.
    unfold os_makedirs. rewrite merged_world_exists_eq, Hex.
    by rewrite bool_decide_eq_true_2.
  - rewrite merged_world_inputs by (by left). done.
  - rewrite merged_world_inputs by (by right). done.
  - reflexivity.
Qed.

Lemma folder_failure_escapes_witness :
  exists w',
    MergePDF.__init__ None w_no_folder = Raise (PermissionError "archive") w' /\
    files w' !! "merged_20250103_1200.pdf" = Some [mkPage 1 0; mkPage 11 0] /\
    files w' !! "PRT_FRONT_000975.pdf" = Some [mkPage 1 0].
Proof.
  destruct (folder_failure_escapes None w_no_folder [mkPage 1 0] [mkPage 11 0])
    as (Hrun & Hmerged & Hfront & _);
    [exact I | reflexivity | reflexivity | reflexivity
    | split; vm_compute; discriminate | reflexivity | vm_compute; reflexivity |].
  eexists. split; [exact Hrun|]. split; [exact Hmerged | exact Hfront].
Defined.

(** X11: when the move of the front scan is refused, the move of the back
    scan is not tried, even if it could be made: the constructor reports the
    one error, prints the closing line and returns normally, with both inputs
    where they were and nothing put into the archive. *)
Theorem first_move_failure_skips_second
    (rot : option (string * Z)) (w : World) (front back : list Page) :
  let odd_new_name :=
    os_path_join "archive" (now_date w +:+ "_" +:+ "PRT_FRONT_000975.pdf") in
  let even_new_name :=
    os_path_join "archive" (now_date w +:+ "_" +:+ "PRT_BACK_000995.pdf") in
  valid_rotation rot ->
  files w !! "PRT_FRONT_000975.pdf" = Some front ->
  files w !! "PRT_BACK_000995.pdf" = Some back ->
  Py.len front = Py.len back ->
  writable ("merged_" +:+ now_minute w +:+ ".pdf") w ->
  exists_path "archive" w = true \/ "archive" ∉ denied w ->
  odd_new_name ∉ dirs w -> odd_new_name ∈ denied w ->
  exists w',
    MergePDF.__init__ rot w = Ok (merged_self rot w front back) w' /\
    files w' = files (merged_world rot w front back) /\
    stdout w'
    = stdout (merged_world rot w front back)
      ++ [MsgMoveError (PermissionError odd_new_name); MsgFinished] /\
    files w' !! "PRT_FRONT_000975.pdf" = Some front /\
    files w' !! "PRT_BACK_000995.pdf" = Some back /\
    files w' !! even_new_name = files w !! even_new_name.
Proof.
  intros d1 d2 Hrot Hf Hb Hlen Hw Hfolder Hd1 Hn1.
  rewrite (init_after_merge rot w front back) by done.
  destruct (merged_self_names rot w front back) as (Ho & He & Hm & Ha).
  pose proof (merged_world_inputs rot w front back "PRT_FRONT_000975.pdf"
                (or_introl eq_refl)) as Hfront.
  pose proof (merged_world_inputs rot w front back "PRT_BACK_000995.pdf"
                (or_intror eq_refl)) as Hback.
  rewrite Hf in Hfront. rewrite Hb in Hback.
  assert (Hd2 : files (merged_world rot w front back) !! d2 = files w !! d2).
  { unfold merged_world. cbn [files set_stdout set_files].
    apply lookup_insert_ne. apply merged_not_archived. by eexists. }
  destruct (archive_folder_step "archive" (merged_world rot w front back))
    as (w1 & Hstep & Hf1 & Ho1 & Hn & Hdirs).
  { destruct Hfolder as [Hex|Hden]; [left|by right].
    by rewrite merged_world_exists_eq. }
  unfold mbind at 1, M_bind at 1, bind at 1.
  rewrite move_files_unfold, Ha, Ho, Hstep.
  unfold archived_as. rewrite Ha.
  change (now_date (merged_world rot w front back)) with (now_date w).
  fold d1.
  rewrite (shutil_move_denied _ d1 w1 front).
  - cbn [is_OSError]. unfold print, mret, M_ret, ret.
    eexists. split; [reflexivity|].
    cbn [files stdout set_stdout]. rewrite Hf1, Ho1, <- app_assoc.
    by repeat split.
  - by rewrite Hf1.
  - destruct Hdirs as [-> | ->]; [done|].
    apply not_elem_of_union. split; [|done].
    apply not_elem_of_singleton, join_not_folder.
  - by rewrite Hn.
Qed.

Lemma first_move_failure_skips_second_witness :
  exists w',
    MergePDF.__init__ None w_front_denied
    = Ok (merged_self None w_front_denied [mkPage 1 0] [mkPage 11 0]) w' /\
    files w' !! "PRT_BACK_000995.pdf" = Some [mkPage 11 0] /\
    files w' !! "archive/2025-01-03_PRT_BACK_000995.pdf" = None.
Proof.
  destruct (first_move_failure_skips_second None w_front_denied
              [mkPage 1 0] [mkPage 11 0])
    as (w' & Hrun & _ & _ & _ & Hback & Hfree);
    [exact I | reflexivity | reflexivity | reflexivity
    | split; vm_compute; discriminate | left; reflexivity
    | vm_compute; discriminate | vm_compute; reflexivity |].
  exists w'. split; [exact Hrun|]. split; [exact Hback | exact Hfree].
Defined.

Lemma move_files_returns (self : MergePDF.t) (w : World) :
  exists_path (MergePDF.archive_folder self) w = true \/
  MergePDF.archive_folder self ∉ denied w ->
  exists w', MergePDF.move_files self w = Ok self w'.
Proof.
  intros Hfolder. rewrite move_files_unfold.
  destruct (archive_folder_step _ w Hfolder) as (w1 & -> & _).
  destruct (shutil_move_spec (MergePDF.odd self)
              (archived_as self w (MergePDF.odd self)) w1)
    as [(e & He & ->)|[(doc & d & _ & _ & _ & ->)|(doc & d & _ & _ & _ & ->)]];
    [rewrite He; by eexists|cbn [is_OSError]; by eexists|].
  match goal with |- context [shutil_move ?a ?b ?c] =>
    destruct (shutil_move_spec a b c)
      as [(e & He & ->)|[(doc' & d' & _ & _ & _ & ->)
                        |(doc' & d' & _ & _ & _ & ->)]]
  end; [rewrite He|cbn [is_OSError]|]; by eexists.
Qed.

(** X12: once the merge is written and the archive folder exists or can be
    made, the constructor returns normally and its last line is the closing
    one, "Finished successfully.", whether the moves succeeded or not. *)
Theorem init_returns_and_says_finished
    (rot : option (string * Z)) (w : World) (front back : list Page) :
  valid_rotation rot ->
  files w !! "PRT_FRONT_000975.pdf" = Some front ->
  files w !! "PRT_BACK_000995.pdf" = Some back ->
  Py.len front = Py.len back ->
  writable ("merged_" +:+ now_minute w +:+ ".pdf") w ->
  exists_path "archive" w = true \/ "archive" ∉ denied w ->
  exists w',
    MergePDF.__init__ rot w = Ok (merged_self rot w front back) w' /\
    last (stdout w') = Some MsgFinished.
Proof.
  intros Hrot Hf Hb Hlen Hw Hfolder.
  rewrite (init_after_merge rot w front back) by done.
  destruct (merged_self_names rot w front back) as (_ & _ & _ & Ha).
  destruct (move_files_returns (merged_self rot w front back)
              (merged_world rot w front back)) as [w1 Hrun].
  { rewrite Ha. destruct Hfolder as [Hex|Hden]; [left|by right].
    by rewrite merged_world_exists_eq. }
  unfold mbind, M_bind, bind. rewrite Hrun.
  unfold print, mret, M_ret, ret. eexists. split; [reflexivity|].
  cbn [stdout set_stdout]. apply last_snoc.
Qed.

Lemma init_returns_and_says_finished_witness :
  exists w',
    MergePDF.__init__ None w_locked
    = Ok (merged_self None w_locked [mkPage 1 0] [mkPage 11 0]) w' /\
    last (stdout w') = Some MsgFinished.
Proof.
  apply (init_returns_and_says_finished None w_locked [mkPage 1 0] [mkPage 11 0]);
    [exact I | reflexivity | reflexivity | reflexivity
    | split; vm_compute; discriminate | left; reflexivity].
Defined.


